(** * Event-news matching pipeline of newsapi ([src/pipeline/matching.py])

    Shallow embedding of the matching core: term extraction, query building,
    the time window, article scoring and the orchestrator
    [match_news_to_event].

    Modelling conventions.
    - A Python [str] is a Rocq [string]; the model is over ASCII text, where
      Python's Unicode classes [\w], [\s] and [str.lower] coincide with the
      ASCII definitions below.
    - A [datetime] is its naive value in microseconds since
      0001-01-01T00:00:00 together with an optional UTC offset
      ([tzinfo]); arithmetic leaving the year range 1..9999 raises
      [OverflowError] as Python does, modelled by [None].
    - Scores are Python floats that only ever hold small integers
      ([0.0] plus integer increments), hence exact; they are modelled by [Z].
    - [datetime.now()] is an explicit argument; the News Client's
      [search_everything] is an argument returning a [py_result]. *)

From Stdlib Require Import ZArith QArith Bool Ascii String List Lia Sorting.Sorted
  Sorting.Permutation Numbers.DecimalString.
Import ListNotations.

Open Scope Z_scope.

(** ** Python results: a value or a raised exception *)

Inductive py_result (A : Type) : Type :=
| PyOk : A -> py_result A
| PyRaise : string -> py_result A.
Arguments PyOk {A} _.
Arguments PyRaise {A} _.

(** ** Characters (ASCII model of Python's character classes) *)

Definition is_upper (c : ascii) : bool :=
  let n := nat_of_ascii c in (65 <=? n)%nat && (n <=? 90)%nat.

Definition is_lower (c : ascii) : bool :=
  let n := nat_of_ascii c in (97 <=? n)%nat && (n <=? 122)%nat.

Definition is_digit (c : ascii) : bool :=
  let n := nat_of_ascii c in (48 <=? n)%nat && (n <=? 57)%nat.

(** [\w]: letters, digits and underscore. *)
Definition is_word (c : ascii) : bool :=
  is_upper c || is_lower c || is_digit c || (nat_of_ascii c =? 95)%nat.

(** [\s] and [str.isspace]: \t \n \v \f \r, \x1c-\x1f and space. *)
Definition is_space (c : ascii) : bool :=
  let n := nat_of_ascii c in
  ((9 <=? n) && (n <=? 13))%nat || ((28 <=? n) && (n <=? 32))%nat.

Definition lower_char (c : ascii) : ascii :=
  if is_upper c then ascii_of_nat (nat_of_ascii c + 32) else c.

Definition space_char : ascii := ascii_of_nat 32.

(** The double quote character, written by its code. *)
Definition dq : ascii := ascii_of_nat 34.

(** ** Strings *)

Fixpoint str_map (f : ascii -> ascii) (s : string) : string :=
  match s with
  | EmptyString => EmptyString
  | String c s' => String (f c) (str_map f s')
  end.

(** [str.lower()] *)
Definition py_lower (s : string) : string := str_map lower_char s.

(** [needle in hay] for strings: substring test. *)
Fixpoint py_in (needle hay : string) : bool :=
  String.prefix needle hay ||
  match hay with
  | EmptyString => false
  | String _ hay' => py_in needle hay'
  end.

(** [x in xs] for a list (or set) of strings. *)
Definition str_mem (x : string) (xs : list string) : bool :=
  existsb (String.eqb x) xs.

Fixpoint split_aux (l : list ascii) (cur : list ascii) : list (list ascii) :=
  match l with
  | [] => match cur with [] => [] | _ => [rev cur] end
  | c :: r =>
      if is_space c then
        match cur with
        | [] => split_aux r []
        | _ => rev cur :: split_aux r []
        end
      else split_aux r (c :: cur)
  end.

(** [s.split()]: split on runs of whitespace, no empty pieces. *)
Definition py_split (s : string) : list string :=
  map string_of_list_ascii (split_aux (list_ascii_of_string s) []).

(** [sep.join(xs)] *)
Definition py_join (sep : string) (xs : list string) : string :=
  String.concat sep xs.

Fixpoint drop_dq (l : list ascii) : list ascii :=
  match l with
  | c :: r => if Ascii.eqb c dq then drop_dq r else l
  | [] => []
  end.

(** [s.strip(q)] with [q] the double-quote character. *)
Definition strip_dq (s : string) : string :=
  string_of_list_ascii (rev (drop_dq (rev (drop_dq (list_ascii_of_string s))))).

(** [e] wrapped in double-quote characters (the f-string of line 96). *)
Definition quote (e : string) : string := String dq (String.append e (String dq EmptyString)).

(** [f"{n}"] for an int. *)
Definition z_str (n : Z) : string := NilEmpty.string_of_int (Z.to_int n).

(** [xs[:n]] for a Python int [n] (negative counts from the end). *)
Definition py_take {A} (n : Z) (xs : list A) : list A :=
  if 0 <=? n then firstn (Z.to_nat n) xs
  else firstn (length xs - Z.to_nat (- n)) xs.

(** ** The named-entity regex [\b[A-Z][a-z]+(?:\s+[A-Z][a-z]+)*\b]

    The greedy backtracking matcher reduces to a deterministic one: a run
    [[a-z]+] or [\s+] can only be followed by what the pattern needs next
    when it is taken whole, so the only backtracking left is the greedy
    [( ... )*] giving back its last repetition when the final [\b] fails. *)

Fixpoint run_len (p : ascii -> bool) (l : list ascii) : nat :=
  match l with
  | c :: r => if p c then S (run_len p r) else O
  | [] => O
  end.

(** [[A-Z][a-z]+] at the head of [l]: its length. *)
Definition cap_word (l : list ascii) : option nat :=
  match l with
  | c :: r =>
      if is_upper c then
        match run_len is_lower r with O => None | k => Some (S k) end
      else None
  | [] => None
  end.

(** [\b] after a consumed word character. *)
Definition boundary_after (r : list ascii) : bool :=
  match r with [] => true | c :: _ => negb (is_word c) end.

(** [(?:\s+[A-Z][a-z]+)*\b] on the rest [r]: the number of characters
    consumed by the repetitions, or [None] when no choice succeeds. *)
Fixpoint match_rest (fuel : nat) (r : list ascii) : option nat :=
  let stop := if boundary_after r then Some O else None in
  match fuel with
  | O => stop
  | S fuel' =>
      match run_len is_space r with
      | O => stop
      | s =>
          match cap_word (skipn s r) with
          | None => stop
          | Some w =>
              match match_rest fuel' (skipn (s + w) r) with
              | Some k => Some (s + w + k)%nat
              | None => stop
              end
          end
      end
  end.

(** A match starting at the head of [l], [prev] being the character before. *)
Definition match_at (prev : option ascii) (l : list ascii) : option nat :=
  let bound := match prev with None => true | Some p => negb (is_word p) end in
  if bound then
    match cap_word l with
    | Some w =>
        match match_rest (length l) (skipn w l) with
        | Some k => Some (w + k)%nat
        | None => None
        end
    | None => None
    end
  else None.

Fixpoint findall_aux (fuel : nat) (prev : option ascii) (l : list ascii)
  : list (list ascii) :=
  match fuel with
  | O => []
  | S fuel' =>
      match l with
      | [] => []
      | c :: r =>
          match match_at prev l with
          | Some n =>
              firstn n l :: findall_aux fuel' (Some (last (firstn n l) c)) (skipn n l)
          | None => findall_aux fuel' (Some c) r
          end
      end
  end.

(** [re.findall(r'\b[A-Z][a-z]+(?:\s+[A-Z][a-z]+)*\b', s)] *)
Definition find_entities (s : string) : list string :=
  let l := list_ascii_of_string s in
  map string_of_list_ascii (findall_aux (length l) None l).

(** ** Word lists *)

Open Scope string_scope.

Definition STOP_WORDS : list string :=
  ["the"; "a"; "an"; "in"; "on"; "at"; "to"; "for"; "of"; "and"; "or"; "is";
   "are"; "was"; "were"; "be"; "been"; "being"; "will"; "would"; "could";
   "should"; "may"; "might"; "can"; "this"; "that"; "these"; "those"; "it";
   "its"; "by"; "from"; "with"; "as"; "but"; "if"; "then"; "than"; "so";
   "what"; "which"; "who"; "whom"; "when"; "where"; "why"; "how"; "all";
   "each"; "every"; "both"; "few"; "more"; "most"; "other"; "some"; "such";
   "no"; "not"; "only"; "own"; "same"; "too"; "very"; "just"; "before";
   "after"; "during"; "while"; "market"; "resolve"; "yes"; "no"].

Definition GENERIC_TAGS : list string :=
  ["business"; "politics"; "news"; "world"; "us"; "usa"; "america";
   "global"; "international"; "economy"; "economic"; "predictions";
   "2024"; "2025"; "2026"].

Close Scope string_scope.

(** ** Term extraction ([extract_key_terms]) *)

(** [re.sub(r'[^\w\s]', ' ', text)] *)
Definition sub_nonword (s : string) : string :=
  str_map (fun c => if is_word c || is_space c then c else space_char) s.

Definition extract_key_terms (text : string) : list string :=
  let text := py_lower text in
  let text := sub_nonword text in
  let words := py_split text in
  filter (fun w => negb (str_mem w STOP_WORDS) && (2 <? String.length w)%nat) words.

(** ** Data model *)

(** [datetime]: naive value (microseconds since 0001-01-01T00:00:00) and
    optional UTC offset. *)
Record datetime := mkDatetime { dt_naive : Z; dt_tz : option Z }.

(** [to_naive] / [dt.replace(tzinfo=None)]: the offset is dropped, the
    wall-clock value kept. *)
Definition to_naive (d : datetime) : Z := dt_naive d.

Record Event := mkEvent {
  ev_id : string;
  ev_slug : string;
  ev_title : string;
  ev_description : string;
  ev_start_date : option datetime;
  ev_end_date : option datetime;
  ev_category : option string;
  ev_tags : list string
}.

(** [Article]; [title] and [source_name] may hold [None] when the JSON
    response carried [null], hence the [or ''] guards of [score_article]. *)
Record Article := mkArticle {
  a_source_id : option string;
  a_source_name : option string;
  a_author : option string;
  a_title : option string;
  a_description : option string;
  a_url : string;
  a_published_at : option datetime
}.

Record ScoredArticle := mkScored {
  sa_article : Article;
  score : Z;
  match_reasons : list string
}.

(** ** Query building ([build_news_query]) *)

(** Step 2: the tag loop. *)
Fixpoint add_tags (max_terms : Z) (tags terms : list string) : list string :=
  match tags with
  | [] => terms
  | tag :: rest =>
      let tag_lower := py_lower tag in
      if negb (str_mem tag_lower GENERIC_TAGS)
         && negb (str_mem tag_lower (map py_lower terms)) then
        let terms' := terms ++ [tag] in
        if max_terms <=? Z.of_nat (length terms') then terms'
        else add_tags max_terms rest terms'
      else add_tags max_terms rest terms
  end.

(** Step 3: the entity loop. *)
Fixpoint add_entities (max_terms : Z) (ents terms : list string) : list string :=
  match ents with
  | [] => terms
  | entity :: rest =>
      if negb (str_mem (py_lower entity) STOP_WORDS) && negb (str_mem entity terms) then
        let terms' := quote entity :: terms in
        if max_terms <=? Z.of_nat (length terms') then terms'
        else add_entities max_terms rest terms'
      else add_entities max_terms rest terms
  end.

(** The term list after steps 1 and 2. *)
Definition collect_terms (event : Event) (max_terms : Z) : list string :=
  let title_terms := extract_key_terms (ev_title event) in
  add_tags max_terms (ev_tags event) (firstn 5 title_terms).

(** The term list after step 3. *)
Definition build_terms (event : Event) (max_terms : Z) : list string :=
  add_entities max_terms (find_entities (ev_title event)) (collect_terms event max_terms).

Definition build_news_query (event : Event) (max_terms : Z) : string :=
  py_join " " (py_take max_terms (build_terms event max_terms)).

(** ** Time window ([get_time_window]) *)

(** Microseconds per day; [datetime.max] is 9999-12-31T23:59:59.999999,
    3652059 days after [datetime.min]. *)
Definition DAY : Z := 86400 * 1000000.
Definition DT_MAX : Z := 3652059 * DAY - 1.

Definition dt_in_range (t : Z) : bool := (0 <=? t) && (t <=? DT_MAX).

(** [timedelta(days=d)]: [OverflowError] beyond 999999999 days. *)
Definition timedelta_days (d : Z) : option Z :=
  if Z.abs d <=? 999999999 then Some (d * DAY) else None.

(** [dt + td] and [dt - td] on naive values. *)
Definition dt_add (t td : Z) : option Z :=
  if dt_in_range (t + td) then Some (t + td) else None.
Definition dt_sub (t td : Z) : option Z :=
  if dt_in_range (t - td) then Some (t - td) else None.

Notation "x <- m ;; k" := (match m with Some x => k | None => None end)
  (at level 61, m at next level, right associativity).

Definition get_time_window (now : Z) (event : Event)
    (default_days_back buffer_days : Z) : option (Z * Z) :=
  to_date <-
    match ev_end_date event with
    | Some e =>
        let end_naive := to_naive e in
        if now <? end_naive then
          one <- timedelta_days 1 ;; n1 <- dt_add now one ;; Some (Z.min end_naive n1)
        else Some now
    | None => Some now
    end ;;
  from_date <-
    match ev_start_date event with
    | Some s =>
        let start_naive := to_naive s in
        buf <- timedelta_days buffer_days ;;
        from_date <- dt_sub start_naive buf ;;
        thirty <- timedelta_days 30 ;;
        min_date <- dt_sub now thirty ;;
        Some (Z.max from_date min_date)
    | None =>
        back <- timedelta_days default_days_back ;; dt_sub now back
    end ;;
  Some (from_date, to_date).

(** ** Scoring ([score_article]) *)

Open Scope string_scope.

Definition QUALITY_SOURCES : list string :=
  ["reuters"; "bloomberg"; "associated press"; "bbc"; "cnn";
   "wall street journal"; "new york times"; "washington post";
   "financial times"; "the economist"; "politico"; "axios"].

Close Scope string_scope.

(** The running [(score, reasons)] pair of [score_article]. *)
Definition ScoreState : Type := (Z * list string)%type.

(** The counting loops of rules 1 and 2. *)
Definition count_matches (query_terms : list string) (text : string) : Z :=
  fold_left
    (fun acc term =>
       let term_clean := py_lower (strip_dq term) in
       if py_in term_clean text then acc + 1 else acc)
    query_terms 0.

(** 1. Title matches (weight 3). *)
Definition title_rule (query_terms : list string) (article_title : string)
    (st : ScoreState) : ScoreState :=
  let title_matches := count_matches query_terms article_title in
  if 0 <? title_matches then
    (fst st + title_matches * 3,
     snd st ++ [String.append "title_match:" (z_str title_matches)])
  else st.

(** 2. Description matches (weight 1). *)
Definition desc_rule (query_terms : list string) (article_desc : string)
    (st : ScoreState) : ScoreState :=
  let desc_matches := count_matches query_terms article_desc in
  if 0 <? desc_matches then
    (fst st + desc_matches * 1,
     snd st ++ [String.append "desc_match:" (z_str desc_matches)])
  else st.

(** 3. Named entities of the event title (weight 5 each). *)
Definition entity_rule (named_entities : list string) (article_title : string)
    (st : ScoreState) : ScoreState :=
  fold_left
    (fun st entity =>
       if py_in (py_lower entity) article_title then
         (fst st + 5, snd st ++ [String.append "entity:" entity])
       else st)
    named_entities st.

(** [(now - pub_date).days]: whole days, rounded down. *)
Definition days_old (now : Z) (pub_date : datetime) : Z :=
  (now - to_naive pub_date) / DAY.

(** 4. Recency bonus. *)
Definition recency_rule (now : Z) (published_at : option datetime)
    (st : ScoreState) : ScoreState :=
  match published_at with
  | None => st
  | Some pub_date =>
      let d := days_old now pub_date in
      if d <=? 1 then (fst st + 2, snd st ++ ["very_recent"%string])
      else if d <=? 3 then (fst st + 1, snd st ++ ["recent"%string])
      else st
  end.

(** 5. Source quality bonus. *)
Definition quality_rule (source_lower : string) (st : ScoreState) : ScoreState :=
  if existsb (fun qs => py_in qs source_lower) QUALITY_SOURCES then
    (fst st + 1, snd st ++ ["quality_source"%string])
  else st.

Definition or_empty (s : option string) : string :=
  match s with Some x => x | None => EmptyString end.

(** [score_article], [now] being the value of [datetime.now()]. The unused
    [event_title] binding of the source is omitted. *)
Definition score_article (now : Z) (article : Article) (event : Event)
    (query_terms : list string) : ScoredArticle :=
  let article_title := py_lower (or_empty (a_title article)) in
  let article_desc := py_lower (or_empty (a_description article)) in
  let st : ScoreState := (0, []) in
  let st := title_rule query_terms article_title st in
  let st := desc_rule query_terms article_desc st in
  let st := entity_rule (find_entities (ev_title event)) article_title st in
  let st := recency_rule now (a_published_at article) st in
  let source_lower := py_lower (or_empty (a_source_name article)) in
  let st := quality_rule source_lower st in
  mkScored article (fst st) (snd st).

(** ** The orchestrator ([match_news_to_event]) *)

(** [scored.sort(key=lambda x: x.score, reverse=True)]: Python's sort is
    stable, also with [reverse=True], so it is a stable sort into
    descending score order, here an insertion sort that puts an element
    before the first one whose score is not larger. *)
Fixpoint insert_desc (x : ScoredArticle) (l : list ScoredArticle) : list ScoredArticle :=
  match l with
  | [] => [x]
  | y :: l' => if score y <=? score x then x :: l else y :: insert_desc x l'
  end.

Fixpoint sort_desc (l : list ScoredArticle) : list ScoredArticle :=
  match l with
  | [] => []
  | x :: l' => insert_desc x (sort_desc l')
  end.

(** The list comprehension of step 4; the [i]-th call of [score_article]
    reads the clock value [score_now i]. *)
Fixpoint score_all (score_now : nat -> Z) (i : nat) (event : Event)
    (query_terms : list string) (articles : list Article) : list ScoredArticle :=
  match articles with
  | [] => []
  | a :: rest =>
      score_article (score_now i) a event query_terms
        :: score_all score_now (S i) event query_terms rest
  end.

(** The signature of [NewsAPIClient.search_everything] as called here:
    query, from, to, sort order, page size; returns the articles and the
    total count, or raises. *)
Definition SearchFn : Type :=
  string -> Z -> Z -> string -> Z -> py_result (list Article * Z).

Definition match_news_to_event (search : SearchFn) (window_now : Z)
    (score_now : nat -> Z) (event : Event) (max_articles : Z) (min_score : Q)
    : py_result (list ScoredArticle) :=
  (* 1. Build query *)
  let query := build_news_query event 8 in
  let query_terms := py_split query in
  (* 2. Get time window; an OverflowError there propagates *)
  match get_time_window window_now event 7 2 with
  | None => PyRaise "OverflowError"%string
  | Some (from_date, to_date) =>
      (* 3. Fetch articles; any exception gives [] *)
      match search query from_date to_date "relevancy"%string 20 with
      | PyRaise _ => PyOk []
      | PyOk (articles, _) =>
          (* 4. Score articles *)
          let scored := score_all score_now 0 event query_terms articles in
          (* 5. Filter and sort *)
          let scored := filter (fun s => Qle_bool min_score (inject_Z (score s))) scored in
          let scored := sort_desc scored in
          PyOk (py_take max_articles scored)
      end
  end.

(** ** The News API client's [get_top_headlines] ([src/newsapi/client.py]) *)

(** A value of a request-parameter dict: an int or a str. *)
Inductive param : Type :=
| PInt : Z -> param
| PStr : string -> param.

(** A Python dict in insertion order. *)
Definition dict : Type := list (string * param).

(** [d[k] = v]: an existing key keeps its place and takes the new value, a
    new key goes last. *)
Fixpoint dict_set (k : string) (v : param) (d : dict) : dict :=
  match d with
  | [] => [(k, v)]
  | (k', v') :: d' => if String.eqb k k' then (k, v) :: d' else (k', v') :: dict_set k v d'
  end.

(** [d.get(k)] *)
Fixpoint dict_get (k : string) (d : dict) : option param :=
  match d with
  | [] => None
  | (k', v) :: d' => if String.eqb k k' then Some v else dict_get k d'
  end.

(** Truth value of an [Optional[str]]: [None] and the empty string are false. *)
Definition truthy (s : option string) : bool :=
  match s with
  | Some x => negb (String.eqb x EmptyString)
  | None => false
  end.

(** [if s: params[k] = s] *)
Definition set_if (k : string) (s : option string) (params : dict) : dict :=
  match s with
  | Some x => if truthy s then dict_set k (PStr x) params else params
  | None => params
  end.

Open Scope string_scope.

(** The parameters built by [get_top_headlines] (lines 180-196). *)
Definition top_headlines_params (country category sources query : option string)
    (page page_size : Z) : dict :=
  let params := [("page", PInt page); ("pageSize", PInt (Z.min page_size 100))] in
  let params := set_if "country" country params in
  let params := set_if "category" category params in
  let params := set_if "sources" sources params in
  let params := set_if "q" query params in
  if negb (existsb truthy [country; category; sources; query]) then
    dict_set "country" (PStr "us") params
  else params.

(** [_request]: [params = params or {}], then [params['apiKey'] = self.api_key];
    these are the parameters url-encoded into the request. *)
Definition request_params (params : dict) (api_key : string) : dict :=
  dict_set "apiKey" (PStr api_key) params.

Close Scope string_scope.

(** ** [PolymarketClient.search_events] ([src/polymarket/client.py]) *)

(** [f"{event.title} {event.description} {' '.join(event.tags)}".lower()] *)
Definition searchable (event : Event) : string :=
  py_lower (String.append (ev_title event)
    (String.append " " (String.append (ev_description event)
      (String.append " " (py_join " " (ev_tags event)))))).

(** The filtering loop over the fetched events. *)
Fixpoint search_matches (query_lower : string) (limit : Z) (events matches : list Event)
  : list Event :=
  match events with
  | [] => matches
  | event :: rest =>
      if py_in query_lower (searchable event) then
        let matches' := matches ++ [event] in
        if limit <=? Z.of_nat (length matches') then matches'
        else search_matches query_lower limit rest matches'
      else search_matches query_lower limit rest matches
  end.

(** [search_events], [events] being what its call
    [self.get_events(limit=100, active=active)] returned. *)
Definition search_events (events : list Event) (query : string) (limit : Z) : list Event :=
  search_matches (py_lower query) limit events [].

(** * Properties *)

(** ** Sorting, filtering and slicing *)

Definition score_desc (a b : ScoredArticle) : Prop := score b <= score a.

Lemma insert_desc_perm x l : Permutation (insert_desc x l) (x :: l).
Proof.
  induction l as [|y l IH]; simpl; [constructor; constructor|].
  destruct (score y <=? score x); [reflexivity|].
  rewrite IH. apply perm_swap.
Qed.

Lemma sort_desc_perm l : Permutation (sort_desc l) l.
Proof.
  induction l as [|x l IH]; simpl; [constructor|].
  rewrite insert_desc_perm. constructor. exact IH.
Qed.

Lemma insert_desc_sorted x l :
  Sorted score_desc l -> Sorted score_desc (insert_desc x l).
Proof.
  induction l as [|y l IH]; simpl; intros Hs.
  - repeat constructor.
  - destruct (score y <=? score x) eqn:E.
    + apply Z.leb_le in E. constructor; [exact Hs|constructor; exact E].
    + apply Z.leb_gt in E. inversion Hs as [|? ? Hl Hh]; subst.
      constructor; [apply IH; exact Hl|].
      destruct l as [|z l]; simpl.
      * constructor. unfold score_desc. lia.
      * inversion Hh; subst. destruct (score z <=? score x);
          constructor; unfold score_desc in *; lia.
Qed.

Lemma sort_desc_sorted l : Sorted score_desc (sort_desc l).
Proof.
  induction l; simpl; [constructor|]. apply insert_desc_sorted; assumption.
Qed.

(** Inserting never moves an element past one of equal score. *)
Lemma filter_insert_desc k x l :
  filter (fun s => score s =? k) (insert_desc x l)
  = filter (fun s => score s =? k) (x :: l).
Proof.
  induction l as [|y l IH]; simpl; [reflexivity|].
  destruct (score y <=? score x) eqn:E; [reflexivity|].
  apply Z.leb_gt in E. simpl. rewrite IH. simpl.
  destruct (score x =? k) eqn:Ex, (score y =? k) eqn:Ey; try reflexivity.
  apply Z.eqb_eq in Ex; apply Z.eqb_eq in Ey. lia.
Qed.

Lemma filter_sort_desc k l :
  filter (fun s => score s =? k) (sort_desc l) = filter (fun s => score s =? k) l.
Proof.
  induction l as [|x l IH]; simpl; [reflexivity|].
  rewrite filter_insert_desc. simpl. rewrite IH. reflexivity.
Qed.

Lemma py_take_prefix {A} (n : Z) (l : list A) : exists m, py_take n l = firstn m l.
Proof. unfold py_take. destruct (0 <=? n); eexists; reflexivity. Qed.

Lemma sorted_firstn {A} (R : A -> A -> Prop) m l :
  Sorted R l -> Sorted R (firstn m l).
Proof.
  revert l; induction m as [|m IH]; intros l Hs; [constructor|].
  destruct l as [|x l]; simpl; [constructor|].
  inversion Hs as [|? ? Hl Hh]; subst. constructor; [apply IH; exact Hl|].
  destruct m, l; simpl; constructor. inversion Hh; assumption.
Qed.

(** ** Orchestrator *)

Definition keeps (min_score : Q) (s : ScoredArticle) : bool :=
  Qle_bool min_score (inject_Z (score s)).

(** The scored, filtered candidates in fetch order. *)
Definition kept_candidates (score_now : nat -> Z) (event : Event) (min_score : Q)
    (articles : list Article) : list ScoredArticle :=
  filter (keeps min_score)
    (score_all score_now 0 event (py_split (build_news_query event 8)) articles).

(** The shape of a successful run: the search was reached and answered. *)
Lemma match_news_ok_inv search wn sn event ma ms res :
  match_news_to_event search wn sn event ma ms = PyOk res ->
  res = [] \/
  exists from_date to_date articles total,
    get_time_window wn event 7 2 = Some (from_date, to_date) /\
    search (build_news_query event 8) from_date to_date "relevancy"%string 20
      = PyOk (articles, total) /\
    res = py_take ma (sort_desc (kept_candidates sn event ms articles)).
Proof.
  unfold match_news_to_event.
  destruct (get_time_window wn event 7 2) as [[f t]|]; [|discriminate].
  destruct (search (build_news_query event 8) f t "relevancy"%string 20)
    as [[arts tot]|e] eqn:Es; intros H; injection H as <-.
  - right. exists f, t, arts, tot. repeat split; assumption || reflexivity.
  - left. reflexivity.
Qed.

Lemma in_firstn_in {A} (x : A) m l : In x (firstn m l) -> In x l.
Proof.
  intros H. rewrite <- (firstn_skipn m l). apply in_or_app. left. exact H.
Qed.

(** ** A concrete run, used by the witnesses *)

Definition demo_event : Event :=
  mkEvent "1" "fed-cut" "Will the Fed cut rates in December?" EmptyString
    None None None ["Federal Reserve"%string].

Definition demo_now : Z := 739000 * DAY.

Definition demo_articles : list Article :=
  [ mkArticle None (Some "Blog"%string) None (Some "Weather today"%string) None
      "u1" (Some (mkDatetime (demo_now - 10 * DAY) None));
    mkArticle None (Some "Reuters"%string) None (Some "Fed signals cut"%string) None
      "u2" (Some (mkDatetime (demo_now - DAY / 2) None));
    mkArticle None (Some "CNN"%string) None (Some "Rates: what next"%string)
      (Some "The Fed meets in December"%string)
      "u3" (Some (mkDatetime (demo_now - 5 * DAY) None));
    mkArticle None (Some "Axios"%string) None (Some "Markets wait on rates"%string) None
      "u4" (Some (mkDatetime (demo_now - 5 * DAY) None)) ].

Definition demo_search : SearchFn := fun _ _ _ _ _ => PyOk (demo_articles, 4).

Definition failing_search : SearchFn := fun _ _ _ _ _ => PyRaise "News API error"%string.

Definition demo_result : list ScoredArticle :=
  match match_news_to_event demo_search demo_now (fun _ => demo_now) demo_event 5 2 with
  | PyOk r => r
  | PyRaise _ => []
  end.

(** C1: every article returned by [match_news_to_event] has
    [score >= min_score]; nothing below [min_score] is returned. *)
Theorem match_news_score_floor search wn sn event ma ms res :
  match_news_to_event search wn sn event ma ms = PyOk res ->
  forall s, In s res -> (ms <= inject_Z (score s))%Q.
Proof.
  intros H s Hin.
  destruct (match_news_ok_inv _ _ _ _ _ _ _ H) as [->|(f & t & arts & tot & _ & _ & ->)];
    [destruct Hin|].
  destruct (py_take_prefix ma (sort_desc (kept_candidates sn event ms arts))) as [m Hm].
  rewrite Hm in Hin. apply in_firstn_in in Hin.
  apply (Permutation_in _ (sort_desc_perm _)) in Hin.
  unfold kept_candidates in Hin. apply filter_In in Hin as [_ Hk].
  unfold keeps in Hk. apply Qle_bool_iff. exact Hk.
Qed.

Lemma match_news_score_floor_witness :
  match_news_to_event demo_search demo_now (fun _ => demo_now) demo_event 5 2
    = PyOk demo_result /\
  forall s, In s demo_result -> (2 <= inject_Z (score s))%Q.
Proof.
  split; [vm_compute; reflexivity|].
  apply (match_news_score_floor demo_search demo_now (fun _ => demo_now) demo_event 5 2).
  vm_compute. reflexivity.
Defined.

(** C2: the result is sorted by descending score (each adjacent pair has
    [score[i] >= score[i+1]]), and it is a prefix of a stable descending
    sort of the kept candidates: articles of equal score keep their fetch
    order. *)
Theorem match_news_sorted_stable search wn sn event ma ms res :
  match_news_to_event search wn sn event ma ms = PyOk res ->
  Sorted score_desc res /\
  (res = [] \/
   exists from_date to_date articles total,
     get_time_window wn event 7 2 = Some (from_date, to_date) /\
     search (build_news_query event 8) from_date to_date "relevancy"%string 20
       = PyOk (articles, total) /\
     exists L m,
       res = firstn m L /\
       Permutation L (kept_candidates sn event ms articles) /\
       Sorted score_desc L /\
       forall k, filter (fun s => score s =? k) L
                 = filter (fun s => score s =? k) (kept_candidates sn event ms articles)).
Proof.
  intros H.
  destruct (match_news_ok_inv _ _ _ _ _ _ _ H) as [->|(f & t & arts & tot & Hw & Hs & ->)].
  - split; [constructor | left; reflexivity].
  - destruct (py_take_prefix ma (sort_desc (kept_candidates sn event ms arts))) as [m Hm].
    rewrite Hm. split; [apply sorted_firstn, sort_desc_sorted|].
    right. exists f, t, arts, tot. split; [exact Hw|]. split; [exact Hs|].
    exists (sort_desc (kept_candidates sn event ms arts)), m.
    split; [reflexivity|]. split; [apply sort_desc_perm|].
    split; [apply sort_desc_sorted|]. intros k. apply filter_sort_desc.
Qed.

(** C3: once the time window is computed and the search is called, a
    raising search makes [match_news_to_event] return the empty list
    without raising, and so does a search answering zero articles. *)
Theorem match_news_search_failure search wn sn event ma ms from_date to_date :
  get_time_window wn event 7 2 = Some (from_date, to_date) ->
  (exists e, search (build_news_query event 8) from_date to_date "relevancy"%string 20
               = PyRaise e) \/
  (exists total, search (build_news_query event 8) from_date to_date "relevancy"%string 20
                   = PyOk ([], total)) ->
  match_news_to_event search wn sn event ma ms = PyOk [].
Proof.
  intros Hw Hs. unfold match_news_to_event. rewrite Hw.
  destruct Hs as [[e He]|[tot Ht]]; [rewrite He; reflexivity | rewrite Ht].
  simpl. unfold py_take. destruct (0 <=? ma); rewrite firstn_nil; reflexivity.
Qed.

Lemma match_news_search_failure_witness :
  match_news_to_event failing_search demo_now (fun _ => demo_now) demo_event 5 2 = PyOk [].
Proof.
  apply (match_news_search_failure failing_search demo_now (fun _ => demo_now) demo_event 5 2
           (demo_now - 7 * DAY) demo_now).
  - vm_compute. reflexivity.
  - left. exists "News API error"%string. reflexivity.
Defined.

Lemma match_news_sorted_stable_witness :
  match_news_to_event demo_search demo_now (fun _ => demo_now) demo_event 5 2
    = PyOk demo_result /\
  Sorted score_desc demo_result.
Proof.
  split; [vm_compute; reflexivity|].
  apply (match_news_sorted_stable demo_search demo_now (fun _ => demo_now) demo_event 5 2).
  vm_compute. reflexivity.
Defined.

(** ** Scoring rules as increments *)

(** Every rule adds an amount to the score and appends tags to the reasons,
    independently of the state it starts from. *)
Definition add_st (st d : ScoreState) : ScoreState := (fst st + fst d, snd st ++ snd d).

Definition st0 : ScoreState := (0, []).

Lemma title_rule_add qt t st : title_rule qt t st = add_st st (title_rule qt t st0).
Proof.
  unfold title_rule, add_st. destruct (0 <? count_matches qt t); simpl;
    [reflexivity|]. rewrite Z.add_0_r, app_nil_r. destruct st; reflexivity.
Qed.

Lemma desc_rule_add qt t st : desc_rule qt t st = add_st st (desc_rule qt t st0).
Proof.
  unfold desc_rule, add_st. destruct (0 <? count_matches qt t); simpl;
    [reflexivity|]. rewrite Z.add_0_r, app_nil_r. destruct st; reflexivity.
Qed.

Lemma entity_rule_add ents t st : entity_rule ents t st = add_st st (entity_rule ents t st0).
Proof.
  unfold entity_rule. revert st. induction ents as [|e ents IH]; intros st; simpl.
  - unfold add_st. simpl. rewrite Z.add_0_r, app_nil_r. destruct st; reflexivity.
  - destruct (py_in (py_lower e) t).
    + rewrite (IH (fst st + 5, _)), (IH (0 + 5, _)). unfold add_st; cbn [fst snd].
      f_equal; [lia | rewrite <- app_assoc; reflexivity].
    + apply IH.
Qed.

Lemma recency_rule_add now p st : recency_rule now p st = add_st st (recency_rule now p st0).
Proof.
  unfold recency_rule, add_st. destruct p as [d|]; simpl.
  - destruct (days_old now d <=? 1); [reflexivity|].
    destruct (days_old now d <=? 3); [reflexivity|].
    rewrite Z.add_0_r, app_nil_r. destruct st; reflexivity.
  - rewrite Z.add_0_r, app_nil_r. destruct st; reflexivity.
Qed.

Lemma quality_rule_add s st : quality_rule s st = add_st st (quality_rule s st0).
Proof.
  unfold quality_rule, add_st. destruct (existsb _ _); [reflexivity|].
  simpl. rewrite Z.add_0_r, app_nil_r. destruct st; reflexivity.
Qed.

(** [score_article] as the sum of the five rule increments. *)
Lemma score_article_parts now a ev qt :
  let atl := py_lower (or_empty (a_title a)) in
  let T := title_rule qt atl st0 in
  let D := desc_rule qt (py_lower (or_empty (a_description a))) st0 in
  let E := entity_rule (find_entities (ev_title ev)) atl st0 in
  let R := recency_rule now (a_published_at a) st0 in
  let K := quality_rule (py_lower (or_empty (a_source_name a))) st0 in
  score (score_article now a ev qt) = fst T + fst D + fst E + fst R + fst K /\
  match_reasons (score_article now a ev qt) = snd T ++ snd D ++ snd E ++ snd R ++ snd K.
Proof.
  intros. unfold score_article. fold st0.
  rewrite (desc_rule_add _ _ (title_rule _ _ _)), entity_rule_add, recency_rule_add,
    quality_rule_add.
  unfold add_st; simpl. split; [reflexivity|]. rewrite !app_assoc. reflexivity.
Qed.

(** An increment is [good] when it is non-negative and zero exactly when
    it carries no tag. *)
Definition good (d : ScoreState) : Prop := 0 <= fst d /\ (fst d = 0 <-> snd d = []).

Lemma good_st0 : good st0.
Proof. unfold good, st0; simpl; split; [lia|tauto]. Qed.

Lemma good_bump d k tag : good d -> 0 < k -> good (fst d + k, snd d ++ [tag]).
Proof.
  unfold good; simpl; intros [H0 _] Hk. split; [lia|]. split; [lia|].
  intros Hn. destruct (snd d); discriminate.
Qed.

Lemma good_add d e : good d -> good e -> good (add_st d e).
Proof.
  unfold good, add_st; simpl. intros [Hd Hd'] [He He']. split; [lia|]. split.
  - intros H. assert (Hd0 : fst d = 0) by lia. assert (He0 : fst e = 0) by lia.
    rewrite (proj1 Hd' Hd0), (proj1 He' He0). reflexivity.
  - intros H. apply app_eq_nil in H as [H1 H2].
    rewrite (proj2 Hd' H1), (proj2 He' H2). reflexivity.
Qed.

Lemma count_matches_nonneg qt t : 0 <= count_matches qt t.
Proof.
  unfold count_matches.
  assert (forall z, z <= fold_left (fun acc term =>
            if py_in (py_lower (strip_dq term)) t then acc + 1 else acc) qt z) as H.
  { induction qt as [|x qt IH]; intros z; simpl; [lia|].
    destruct (py_in _ t); [specialize (IH (z + 1)); lia | apply IH]. }
  apply H.
Qed.

Lemma title_rule_good qt t : good (title_rule qt t st0).
Proof.
  unfold title_rule. destruct (0 <? count_matches qt t) eqn:E; [|apply good_st0].
  apply Z.ltb_lt in E. apply good_bump; [apply good_st0|lia].
Qed.

Lemma desc_rule_good qt t : good (desc_rule qt t st0).
Proof.
  unfold desc_rule. destruct (0 <? count_matches qt t) eqn:E; [|apply good_st0].
  apply Z.ltb_lt in E. apply good_bump; [apply good_st0|lia].
Qed.

Lemma entity_rule_good ents t : good (entity_rule ents t st0).
Proof.
  unfold entity_rule. generalize good_st0. generalize st0.
  induction ents as [|e ents IH]; intros st Hst; simpl; [exact Hst|].
  apply IH. destruct (py_in _ t); [apply good_bump; [exact Hst|lia] | exact Hst].
Qed.

Lemma recency_rule_good now p : good (recency_rule now p st0).
Proof.
  unfold recency_rule. destruct p as [d|]; [|apply good_st0].
  destruct (days_old now d <=? 1); [apply good_bump; [apply good_st0|lia]|].
  destruct (days_old now d <=? 3); [apply good_bump; [apply good_st0|lia]|apply good_st0].
Qed.

Lemma quality_rule_good s : good (quality_rule s st0).
Proof.
  unfold quality_rule. destruct (existsb _ _); [apply good_bump; [apply good_st0|lia]|].
  apply good_st0.
Qed.

(** C8: the score of [score_article] is non-negative, and it is zero exactly
    when [match_reasons] is empty. *)
Theorem score_article_nonneg now a ev qt :
  0 <= score (score_article now a ev qt) /\
  (score (score_article now a ev qt) = 0 <-> match_reasons (score_article now a ev qt) = []).
Proof.
  pose proof (score_article_parts now a ev qt) as P. cbv zeta in P.
  destruct P as [Hs Hr]. rewrite Hs, Hr.
  pose proof (good_add _ _ (title_rule_good qt (py_lower (or_empty (a_title a))))
    (good_add _ _ (desc_rule_good qt (py_lower (or_empty (a_description a))))
    (good_add _ _ (entity_rule_good (find_entities (ev_title ev)) (py_lower (or_empty (a_title a))))
    (good_add _ _ (recency_rule_good now (a_published_at a))
       (quality_rule_good (py_lower (or_empty (a_source_name a)))))))) as G.
  unfold good, add_st in G. simpl in G. rewrite !Z.add_assoc in G. exact G.
Qed.

(** ** Recency *)

Definition without_date (a : Article) : Article :=
  mkArticle (a_source_id a) (a_source_name a) (a_author a) (a_title a)
    (a_description a) (a_url a) None.

(** The recency rule is the only difference between scoring an article and
    scoring it without its publication date. *)
Lemma score_article_recency now a ev qt :
  let base := score_article now (without_date a) ev qt in
  let R := recency_rule now (a_published_at a) st0 in
  exists pre post,
    match_reasons base = pre ++ post /\
    score (score_article now a ev qt) = score base + fst R /\
    match_reasons (score_article now a ev qt) = pre ++ snd R ++ post.
Proof.
  intros base R.
  pose proof (score_article_parts now a ev qt) as P. cbv zeta in P.
  pose proof (score_article_parts now (without_date a) ev qt) as P'. cbv zeta in P'.
  destruct P as [Hs Hr]. destruct P' as [Hs' Hr']. subst base R.
  rewrite Hs, Hr, Hs', Hr'.
  cbn [a_title a_description a_source_name a_published_at without_date].
  assert (Hn : recency_rule now None st0 = st0) by reflexivity. rewrite Hn.
  change (fst st0) with 0. change (snd st0) with (@nil string). rewrite app_nil_l.
  set (T := title_rule qt (py_lower (or_empty (a_title a))) st0).
  set (D := desc_rule qt (py_lower (or_empty (a_description a))) st0).
  set (E := entity_rule (find_entities (ev_title ev)) (py_lower (or_empty (a_title a))) st0).
  set (R := recency_rule now (a_published_at a) st0).
  set (K := quality_rule (py_lower (or_empty (a_source_name a))) st0).
  clearbody T D E R K.
  exists (snd T ++ snd D ++ snd E), (snd K).
  rewrite <- !app_assoc. split; [reflexivity|]. split; [lia|reflexivity].
Qed.

Lemma DAY_pos : 0 < DAY.
Proof. unfold DAY. lia. Qed.

Lemma days_old_le1 now p : now - to_naive p < 2 * DAY -> days_old now p <= 1.
Proof.
  intros H. unfold days_old. assert ((now - to_naive p) / DAY < 2); [|lia].
  apply Z.div_lt_upper_bound; [exact DAY_pos | lia].
Qed.

Lemma days_old_gt1 now p : 2 * DAY <= now - to_naive p -> 1 < days_old now p.
Proof.
  intros H. unfold days_old. assert (2 <= (now - to_naive p) / DAY); [|lia].
  apply Z.div_le_lower_bound; [exact DAY_pos | lia].
Qed.

Lemma days_old_le3 now p : now - to_naive p < 4 * DAY -> days_old now p <= 3.
Proof.
  intros H. unfold days_old. assert ((now - to_naive p) / DAY < 4); [|lia].
  apply Z.div_lt_upper_bound; [exact DAY_pos | lia].
Qed.

Lemma days_old_gt3 now p : 4 * DAY <= now - to_naive p -> 3 < days_old now p.
Proof.
  intros H. unfold days_old. assert (4 <= (now - to_naive p) / DAY); [|lia].
  apply Z.div_le_lower_bound; [exact DAY_pos | lia].
Qed.

(** C4 (amended): the recency bonus is decided on the whole number of days
    of [now - published_at] (timezone offset dropped), rounded down: ages
    below 2 days give +2 and the tag [very_recent], ages from 2 to below 4
    days give +1 and [recent], older articles and articles without a date
    get nothing; so 1 day old gives +2, 2 days +1, 4 days nothing. *)
Theorem recency_bonus_whole_days now a ev qt :
  let base := score_article now (without_date a) ev qt in
  let sa := score_article now a ev qt in
  exists pre post,
    match_reasons base = pre ++ post /\
    match a_published_at a with
    | None => score sa = score base /\ match_reasons sa = pre ++ post
    | Some p =>
        let age := now - to_naive p in
        (age < 2 * DAY ->
           score sa = score base + 2 /\
           match_reasons sa = pre ++ ["very_recent"%string] ++ post) /\
        (2 * DAY <= age < 4 * DAY ->
           score sa = score base + 1 /\
           match_reasons sa = pre ++ ["recent"%string] ++ post) /\
        (4 * DAY <= age -> score sa = score base /\ match_reasons sa = pre ++ post)
    end.
Proof.
  intros base sa.
  destruct (score_article_recency now a ev qt) as (pre & post & Hb & Hs & Hr).
  exists pre, post. split; [exact Hb|].
  change sa with (score_article now a ev qt). rewrite Hs, Hr.
  change (score_article now (without_date a) ev qt) with base.
  clearbody base sa.
  unfold recency_rule. destruct (a_published_at a) as [p|]; cbn [fst snd st0 app].
  - split; [|split].
    + intros H. rewrite (proj2 (Z.leb_le _ _) (days_old_le1 now p H)).
      cbn [fst snd st0 app]. split; [lia|reflexivity].
    + intros [H1 H2].
      rewrite (proj2 (Z.leb_gt _ _) (days_old_gt1 now p H1)),
        (proj2 (Z.leb_le _ _) (days_old_le3 now p H2)).
      cbn [fst snd st0 app]. split; [lia|reflexivity].
    + intros H.
      assert (1 < days_old now p) as H1 by (apply days_old_gt1; pose proof DAY_pos; lia).
      rewrite (proj2 (Z.leb_gt _ _) H1), (proj2 (Z.leb_gt _ _) (days_old_gt3 now p H)).
      cbn [fst snd st0 app]. split; [lia|reflexivity].
  - split; [lia|reflexivity].
Qed.

Definition dated_article (pub : Z) : Article :=
  mkArticle None None None None None EmptyString (Some (mkDatetime pub None)).

(** C4 refuted: an article 36 hours old is more than one day old, yet it
    gets the [very_recent] bonus (+2) and not [recent] (+1). *)
Lemma recency_day_and_half_counterexample :
  let a := dated_article (demo_now - 36 * 3600 * 1000000) in
  let sa := score_article demo_now a demo_event [] in
  DAY < demo_now - (demo_now - 36 * 3600 * 1000000) <= 3 * DAY /\
  score sa = 2 /\ match_reasons sa = ["very_recent"%string].
Proof. vm_compute. repeat split; congruence. Qed.

(** C9: an article published after [now] has a negative whole-day age and
    gets the [very_recent] bonus of +2. *)
Theorem future_publication_very_recent now a ev qt p :
  a_published_at a = Some p -> now < to_naive p ->
  days_old now p < 0 /\
  score (score_article now a ev qt) = score (score_article now (without_date a) ev qt) + 2 /\
  exists pre post,
    match_reasons (score_article now (without_date a) ev qt) = pre ++ post /\
    match_reasons (score_article now a ev qt) = pre ++ ["very_recent"%string] ++ post.
Proof.
  intros Hp Hlt.
  assert (Hneg : days_old now p < 0).
  { unfold days_old. apply Z.div_lt_upper_bound; [exact DAY_pos | lia]. }
  destruct (score_article_recency now a ev qt) as (pre & post & Hb & Hs & Hr).
  unfold recency_rule in Hs, Hr. rewrite Hp in Hs, Hr.
  rewrite (proj2 (Z.leb_le _ _) (ltac:(lia) : days_old now p <= 1)) in Hs, Hr.
  cbn [fst snd st0 app] in Hs, Hr.
  split; [exact Hneg|]. split; [rewrite Hs; lia|].
  exists pre, post. split; [exact Hb|exact Hr].
Qed.

Lemma future_publication_very_recent_witness :
  days_old demo_now (mkDatetime (demo_now + DAY) None) < 0 /\
  score (score_article demo_now (dated_article (demo_now + DAY)) demo_event [])
    = score (score_article demo_now (without_date (dated_article (demo_now + DAY)))
               demo_event []) + 2.
Proof.
  destruct (future_publication_very_recent demo_now (dated_article (demo_now + DAY))
              demo_event [] (mkDatetime (demo_now + DAY) None)) as [H1 [H2 _]].
  - reflexivity.
  - vm_compute. reflexivity.
  - split; assumption.
Defined.

(** ** Title matches *)

Definition is_title_tag (r : string) : bool := String.prefix "title_match:" r.

Lemma count_matches_length qt t :
  count_matches qt t
  = Z.of_nat (length (filter (fun term => py_in (py_lower (strip_dq term)) t) qt)).
Proof.
  unfold count_matches.
  assert (H : forall z, fold_left (fun acc term =>
      if py_in (py_lower (strip_dq term)) t then acc + 1 else acc) qt z
    = z + Z.of_nat (length (filter (fun term => py_in (py_lower (strip_dq term)) t) qt))).
  { induction qt as [|x qt IH]; intros z; simpl; [lia|].
    destruct (py_in _ t); simpl; rewrite IH; lia. }
  apply H.
Qed.

Lemma entity_rule_no_title_tag ents t st :
  filter is_title_tag (snd (entity_rule ents t st)) = filter is_title_tag (snd st).
Proof.
  unfold entity_rule. revert st.
  induction ents as [|e ents IH]; intros st; [reflexivity|]. cbn [fold_left].
  rewrite IH. destruct (py_in _ t); [|reflexivity].
  cbn [snd]. rewrite filter_app. cbn [filter]. 
  change (is_title_tag (String.append "entity:" e)) with false.
  rewrite app_nil_r. reflexivity.
Qed.

(** C5 (amended): the title rule adds 3 for every entry of [query_terms]
    (duplicates counted) whose quote-stripped, lower-cased form is a
    substring of the lower-cased title, and [match_reasons] holds one
    [title_match:<n>] tag, [n] that number of entries, when [n > 0] and
    none otherwise. *)
Theorem title_match_per_entry now a ev qt :
  let atl := py_lower (or_empty (a_title a)) in
  let n := Z.of_nat (length (filter (fun term => py_in (py_lower (strip_dq term)) atl) qt)) in
  (forall st, title_rule qt atl st
     = if 0 <? n then (fst st + 3 * n, snd st ++ [String.append "title_match:" (z_str n)])
       else st) /\
  filter is_title_tag (match_reasons (score_article now a ev qt))
    = if 0 <? n then [String.append "title_match:" (z_str n)] else [].
Proof.
  intros atl n. split.
  - intros st. unfold title_rule. rewrite count_matches_length. fold n.
    destruct (0 <? n); [f_equal; lia | reflexivity].
  - pose proof (score_article_parts now a ev qt) as P. cbv zeta in P.
    destruct P as [_ Hr]. rewrite Hr. fold atl. rewrite !filter_app.
    rewrite entity_rule_no_title_tag.
    assert (HD : filter is_title_tag
                   (snd (desc_rule qt (py_lower (or_empty (a_description a))) st0)) = []).
    { unfold desc_rule. destruct (0 <? _); reflexivity. }
    assert (HR : filter is_title_tag (snd (recency_rule now (a_published_at a) st0)) = []).
    { unfold recency_rule. destruct (a_published_at a) as [p|]; [|reflexivity].
      destruct (days_old now p <=? 1); [reflexivity|].
      destruct (days_old now p <=? 3); reflexivity. }
    assert (HK : filter is_title_tag
                   (snd (quality_rule (py_lower (or_empty (a_source_name a))) st0)) = []).
    { unfold quality_rule. destruct (existsb _ _); reflexivity. }
    rewrite HD, HR, HK. cbn [snd st0 filter app]. rewrite !app_nil_r.
    unfold title_rule. rewrite count_matches_length. fold n. clearbody n atl.
    destruct (0 <? n); [|reflexivity]. cbn [snd st0 app filter].
    assert (Ht : is_title_tag (String.append "title_match:" (z_str n)) = true)
      by (clear; unfold is_title_tag; destruct (z_str n); reflexivity).
    rewrite Ht. reflexivity.
Qed.

Definition titled_article (title : string) : Article :=
  mkArticle None None None (Some title) None EmptyString None.

(** C5 refuted: the quoted entity and the lower-case title term of the same
    word are one distinct term once normalised, yet both count. *)
Lemma title_match_distinct_counterexample :
  let qt := [quote "Fed"; "fed"]%string in
  map (fun term => py_lower (strip_dq term)) qt = ["fed"; "fed"]%string /\
  filter is_title_tag
    (match_reasons (score_article demo_now (titled_article "Fed cuts rates") demo_event qt))
    = ["title_match:2"%string].
Proof. vm_compute. split; reflexivity. Qed.

(** ** Time window *)

Lemma timedelta_days_small d : Z.abs d <= 999999999 -> timedelta_days d = Some (d * DAY).
Proof. intros H. unfold timedelta_days. rewrite (proj2 (Z.leb_le _ _) H). reflexivity. Qed.

Lemma dt_sub_ok t td : 0 <= t - td <= DT_MAX -> dt_sub t td = Some (t - td).
Proof.
  intros [H1 H2]. unfold dt_sub, dt_in_range.
  rewrite (proj2 (Z.leb_le _ _) H1), (proj2 (Z.leb_le _ _) H2). reflexivity.
Qed.

Lemma dt_add_ok t td : 0 <= t + td <= DT_MAX -> dt_add t td = Some (t + td).
Proof.
  intros [H1 H2]. unfold dt_add, dt_in_range.
  rewrite (proj2 (Z.leb_le _ _) H1), (proj2 (Z.leb_le _ _) H2). reflexivity.
Qed.

Lemma dt_sub_some t td r : dt_sub t td = Some r -> r = t - td.
Proof. unfold dt_sub. destruct (dt_in_range _); congruence. Qed.

Lemma timedelta_days_some d r : timedelta_days d = Some r -> r = d * DAY.
Proof. unfold timedelta_days. destruct (_ <=? _); congruence. Qed.

(** C6 (amended): when [get_time_window] returns (no [OverflowError]),
    [from_date] is [max(start_date - buffer_days, now - 30 days)] for a
    present [start_date] (offset dropped) and [now - default_days_back days]
    otherwise; with [start_date] 40 days before [now] and [buffer_days = 2]
    it returns, with [from_date = now - 30 days], as long as [now] is at
    least 42 days after [datetime.min] and one day before [datetime.max]. *)
Theorem time_window_from_date :
  (forall now ev default_days_back buffer_days from_date to_date,
     get_time_window now ev default_days_back buffer_days = Some (from_date, to_date) ->
     from_date = match ev_start_date ev with
                 | Some s => Z.max (to_naive s - buffer_days * DAY) (now - 30 * DAY)
                 | None => now - default_days_back * DAY
                 end) /\
  (forall now ev s default_days_back,
     ev_start_date ev = Some s -> to_naive s = now - 40 * DAY ->
     42 * DAY <= now <= DT_MAX - DAY ->
     exists to_date, get_time_window now ev default_days_back 2 = Some (now - 30 * DAY, to_date)).
Proof.
  split.
  - intros now ev dflt buf fr t H. unfold get_time_window in H.
    destruct (match ev_end_date ev with Some _ => _ | None => _ end) as [t0|]; [|discriminate].
    destruct (ev_start_date ev) as [s|].
    + destruct (timedelta_days buf) as [b|] eqn:Eb; [|discriminate].
      destruct (dt_sub (to_naive s) b) as [f|] eqn:Ef; [|discriminate].
      destruct (timedelta_days 30) as [th|] eqn:Eth; [|discriminate].
      destruct (dt_sub now th) as [m|] eqn:Em; [|discriminate].
      injection H as <- _.
      apply timedelta_days_some in Eb, Eth. apply dt_sub_some in Ef, Em. subst. reflexivity.
    + destruct (timedelta_days dflt) as [b|] eqn:Eb; [|discriminate].
      destruct (dt_sub now b) as [f|] eqn:Ef; [|discriminate].
      injection H as <- _.
      apply timedelta_days_some in Eb. apply dt_sub_some in Ef. subst. reflexivity.
  - intros now ev s dflt Hs Hn Hr. pose proof DAY_pos as HD.
    assert (HM : 0 < DT_MAX) by (unfold DT_MAX; pose proof DAY_pos; lia).
    unfold get_time_window. rewrite Hs, Hn.
    rewrite (timedelta_days_small 2) by lia.
    rewrite (dt_sub_ok (now - 40 * DAY) (2 * DAY)) by lia.
    rewrite (timedelta_days_small 30) by lia.
    rewrite (dt_sub_ok now (30 * DAY)) by lia.
    replace (Z.max (now - 40 * DAY - 2 * DAY) (now - 30 * DAY)) with (now - 30 * DAY) by lia.
    destruct (ev_end_date ev) as [e|].
    + destruct (now <? to_naive e).
      * rewrite (timedelta_days_small 1) by lia. rewrite (dt_add_ok now (1 * DAY)) by lia.
        eexists. reflexivity.
      * eexists. reflexivity.
    + eexists. reflexivity.
Qed.

Definition dated_event (start : option datetime) : Event :=
  mkEvent "2" "e" "Event" EmptyString start None None [].

(** C6 refuted: a [start_date] at [datetime.min] makes
    [start_date - timedelta(days=2)] raise [OverflowError], so no window
    is returned although [max(start - 2 days, now - 30 days)] exists. *)
Lemma time_window_overflow_counterexample :
  get_time_window demo_now (dated_event (Some (mkDatetime 0 (Some 0)))) 7 2 = None.
Proof. vm_compute. reflexivity. Qed.

Lemma time_window_from_date_example :
  exists to_date,
    get_time_window demo_now (dated_event (Some (mkDatetime (demo_now - 40 * DAY) None))) 7 2
    = Some (demo_now - 30 * DAY, to_date).
Proof.
  apply (proj2 time_window_from_date demo_now _ (mkDatetime (demo_now - 40 * DAY) None) 7).
  - reflexivity.
  - reflexivity.
  - vm_compute. split; discriminate.
Defined.

(** ** Query building *)

Lemma prefix_app_self x b : String.prefix x (String.append x b) = true.
Proof.
  induction x as [|c x IH]; simpl; [destruct b; reflexivity|].
  destruct (ascii_dec c c) as [_|n]; [exact IH|contradiction].
Qed.






Definition starts_upper (s : string) : bool :=
  match s with String c _ => is_upper c | EmptyString => false end.

Lemma lower_char_not_upper c : is_upper (lower_char c) = false.
Proof. destruct c as [[] [] [] [] [] [] [] []]; reflexivity. Qed.

Lemma list_ascii_str_map f s :
  list_ascii_of_string (str_map f s) = map f (list_ascii_of_string s).
Proof. induction s as [|c s IH]; simpl; [reflexivity|]. rewrite IH. reflexivity. Qed.

Lemma split_aux_chars (P : ascii -> Prop) l cur :
  (forall c, In c l \/ In c cur -> P c) ->
  forall w, In w (split_aux l cur) -> forall c, In c w -> P c.
Proof.
  revert cur. induction l as [|x l IH]; intros cur HP w Hw c Hc; simpl in Hw.
  - destruct cur; [destruct Hw|]. destruct Hw as [<-|[]].
    apply HP. right. apply in_rev. exact Hc.
  - destruct (is_space x).
    + destruct cur as [|y cur].
      * eapply IH; [|exact Hw|exact Hc]. intros d [Hd|[]]. apply HP. left. right. exact Hd.
      * destruct Hw as [<-|Hw].
        -- apply HP. right. apply in_rev. exact Hc.
        -- eapply IH; [|exact Hw|exact Hc]. intros d [Hd|[]]. apply HP. left. right. exact Hd.
    + eapply IH; [|exact Hw|exact Hc]. intros d [Hd|[<-|Hd]]; apply HP.
      * left. right. exact Hd.
      * left. left. reflexivity.
      * right. exact Hd.
Qed.

(** Extracted terms are lower-case. *)
Lemma extract_key_terms_lower s w :
  In w (extract_key_terms s) -> starts_upper w = false.
Proof.
  unfold extract_key_terms, py_split. intros Hw. apply filter_In in Hw as [Hw _].
  apply in_map_iff in Hw as [piece [<- Hp]].
  assert (Hc : forall c, In c piece -> is_upper c = false).
  { eapply split_aux_chars; [|exact Hp]. intros c [Hc|[]].
    unfold sub_nonword, py_lower in Hc. rewrite !list_ascii_str_map in Hc.
    apply in_map_iff in Hc as [c1 [<- Hc1]]. apply in_map_iff in Hc1 as [c0 [<- _]].
    destruct (is_word (lower_char c0) || is_space (lower_char c0));
      [apply lower_char_not_upper | reflexivity]. }
  destruct piece as [|c piece]; [reflexivity|]. simpl. apply Hc. left. reflexivity.
Qed.

Lemma match_at_head prev x l n :
  match_at prev (x :: l) = Some n -> is_upper x = true /\ (1 <= n)%nat.
Proof.
  unfold match_at, cap_word. cbv zeta.
  destruct (match prev with Some p => negb (is_word p) | None => true end); [|discriminate].
  destruct (is_upper x); [|discriminate].
  destruct (run_len is_lower l); [discriminate|].
  destruct (match_rest _ _); [|discriminate]. intros E. injection E as <-. split; [reflexivity|lia].
Qed.

Lemma findall_aux_upper fuel prev l m :
  In m (findall_aux fuel prev l) -> exists c r, m = c :: r /\ is_upper c = true.
Proof.
  revert prev l. induction fuel as [|fuel IH]; intros prev l Hm; [destruct Hm|].
  simpl in Hm. destruct l as [|x l]; [destruct Hm|].
  destruct (match_at prev (x :: l)) as [n|] eqn:E; [|eapply IH; exact Hm].
  destruct Hm as [<-|Hm]; [|eapply IH; exact Hm].
  apply match_at_head in E as [Ex Hn]. destruct n as [|n]; [lia|].
  exists x, (firstn n l). split; [reflexivity|exact Ex].
Qed.

(** Detected entities start with a capital letter. *)
Lemma find_entities_upper s e : In e (find_entities s) -> starts_upper e = true.
Proof.
  unfold find_entities. intros He. apply in_map_iff in He as [m [<- Hm]].
  apply findall_aux_upper in Hm as (c & r & -> & Hc). exact Hc.
Qed.

Lemma quote_not_upper e : starts_upper (quote e) = false.
Proof. reflexivity. Qed.

Lemma add_tags_incl mt tags terms x :
  In x (add_tags mt tags terms) -> In x terms \/ In x tags.
Proof.
  revert terms. induction tags as [|tag tags IH]; intros terms Hx; [left; exact Hx|].
  simpl in Hx. destruct (_ && _).
  - destruct (mt <=? _).
    + apply in_app_or in Hx as [Hx|[<-|[]]]; [left; exact Hx|right; left; reflexivity].
    + apply IH in Hx as [Hx|Hx]; [|right; right; exact Hx].
      apply in_app_or in Hx as [Hx|[<-|[]]]; [left; exact Hx|right; left; reflexivity].
  - apply IH in Hx as [Hx|Hx]; [left; exact Hx|right; right; exact Hx].
Qed.

Lemma str_mem_true x l : str_mem x l = true <-> In x l.
Proof.
  unfold str_mem. rewrite existsb_exists. split.
  - intros [y [Hy Hxy]]. apply String.eqb_eq in Hxy. subst. exact Hy.
  - intros Hx. exists x. split; [exact Hx|apply String.eqb_refl].
Qed.

Lemma str_mem_false x l : str_mem x l = false <-> ~ In x l.
Proof.
  rewrite <- str_mem_true. destruct (str_mem x l); split; congruence.
Qed.

Definition not_stop (e : string) : bool := negb (str_mem (py_lower e) STOP_WORDS).

Lemma add_tags_keeps mt tags terms x : In x terms -> In x (add_tags mt tags terms).
Proof.
  revert terms. induction tags as [|tag tags IH]; intros terms Hx; [exact Hx|].
  simpl. destruct (_ && _); [|apply IH; exact Hx].
  destruct (mt <=? _); [|apply IH]; apply in_or_app; left; exact Hx.
Qed.

(** When the bound is never reached early and no entity is already a
    member, every non-stop-word entity is inserted, in reverse order. *)
Lemma add_entities_all mt ents terms :
  (forall e, In e ents -> starts_upper e = true /\
     (not_stop e = true -> str_mem e terms = false)) ->
  Z.of_nat (length terms + length (filter not_stop ents)) <= mt ->
  add_entities mt ents terms = rev (map quote (filter not_stop ents)) ++ terms.
Proof.
  revert terms. induction ents as [|e ents IH]; intros terms H Hlen; [reflexivity|].
  cbn [add_entities filter] in Hlen |- *.
  change (negb (str_mem (py_lower e) STOP_WORDS)) with (not_stop e).
  destruct (not_stop e) eqn:Es; cbn [andb].
  - destruct (H e (or_introl eq_refl)) as [Hu Hm]. rewrite (Hm Es). cbn [negb].
    cbn [length] in Hlen.
    destruct (mt <=? Z.of_nat (length (quote e :: terms))) eqn:E.
    + apply Z.leb_le in E. cbn [length] in E.
      assert (Hnil : filter not_stop ents = []).
      { destruct (filter not_stop ents); [reflexivity|cbn [length] in Hlen; lia]. }
      rewrite Hnil. reflexivity.
    + rewrite IH.
      * cbn [map rev]. rewrite <- app_assoc. reflexivity.
      * intros e' He'. destruct (H e' (or_intror He')) as [Hu' Hm']. split; [exact Hu'|].
        intros Hs'.
        change (str_mem e' (quote e :: terms)) with (String.eqb e' (quote e) || str_mem e' terms).
        rewrite (Hm' Hs'), orb_false_r.
        apply String.eqb_neq. intros ->. rewrite quote_not_upper in Hu'. discriminate.
      * cbn [length]. lia.
  - apply IH; [|exact Hlen]. intros e' He'. apply H. right. exact He'.
Qed.

Lemma py_take_all {A} mt (l : list A) : Z.of_nat (length l) <= mt -> py_take mt l = l.
Proof.
  intros H. unfold py_take. rewrite (proj2 (Z.leb_le 0 mt)) by lia.
  apply firstn_all2. lia.
Qed.

(** C10 (amended): the duplicate check of the entity loop only catches a
    tag spelled exactly like the entity, never a lower-cased title term nor
    an inserted quoted entity. So when the loop does not stop at
    [max_terms] before the end (collected terms plus non-stop-word entities
    at most [max_terms]) and no tag equals an entity, every non-stop-word
    entity is inserted quoted, repeated entities repeatedly, and an entity
    whose lower-cased form is among the first five title terms is in the
    final query both quoted and lower-cased. *)
Theorem entity_case_duplicates ev mt :
  let ents := filter not_stop (find_entities (ev_title ev)) in
  (forall e, In e ents -> ~ In e (ev_tags ev)) ->
  Z.of_nat (length (collect_terms ev mt) + length ents) <= mt ->
  build_terms ev mt = rev (map quote ents) ++ collect_terms ev mt /\
  build_news_query ev mt = py_join " " (rev (map quote ents) ++ collect_terms ev mt) /\
  (forall e, In e ents ->
     In (py_lower e) (firstn 5 (extract_key_terms (ev_title ev))) ->
     In (quote e) (py_take mt (build_terms ev mt)) /\
     In (py_lower e) (py_take mt (build_terms ev mt))).
Proof.
  intros ents Htags Hlen.
  assert (HB : build_terms ev mt = rev (map quote ents) ++ collect_terms ev mt).
  { unfold build_terms. apply add_entities_all; [|exact Hlen].
    intros e He. split; [eapply find_entities_upper; exact He|]. intros Hs.
    apply str_mem_false. intros Hin. unfold collect_terms in Hin.
    apply add_tags_incl in Hin as [Hin|Hin].
    - apply in_firstn_in, extract_key_terms_lower in Hin.
      apply find_entities_upper in He. congruence.
    - apply (Htags e); [apply filter_In; split; assumption|exact Hin]. }
  assert (HL : Z.of_nat (length (rev (map quote ents) ++ collect_terms ev mt)) <= mt).
  { rewrite length_app, length_rev, length_map. lia. }
  split; [exact HB|]. split.
  - unfold build_news_query. rewrite HB, py_take_all by exact HL. reflexivity.
  - intros e He Ht. rewrite HB, py_take_all by exact HL. split; apply in_or_app.
    + left. apply in_rev. rewrite rev_involutive. apply in_map. exact He.
    + right. unfold collect_terms. apply add_tags_keeps. exact Ht.
Qed.

Definition apple_event : Event :=
  mkEvent "3" "apple" "Apple vs. Apple" EmptyString None None None [].

Lemma entity_case_duplicates_witness :
  build_news_query apple_event 8
  = py_join " " (rev (map quote (filter not_stop (find_entities (ev_title apple_event))))
                 ++ collect_terms apple_event 8).
Proof.
  assert (H1 : forall e, In e (filter not_stop (find_entities (ev_title apple_event))) ->
                 ~ In e (ev_tags apple_event)) by (intros e _ Ht; destruct Ht).
  assert (H2 : Z.of_nat (length (collect_terms apple_event 8)
                 + length (filter not_stop (find_entities (ev_title apple_event)))) <= 8)
    by (vm_compute; discriminate).
  exact (proj1 (proj2 (entity_case_duplicates apple_event 8 H1 H2))).
Defined.

Definition apple_google_event : Event :=
  mkEvent "4" "apple-google" "Apple beats Google" EmptyString None None None
    ["iPhone"; "Tech"; "Stocks"; "Nasdaq"; "Earnings"]%string.

(** C10 refuted: [google] is a title term and [Google] a detected entity,
    but the term list reaches [max_terms] with the first entity, the loop
    stops, and the query holds [google] without the quoted [Google]. *)
Lemma entity_case_duplicates_counterexample :
  str_mem "Google" (find_entities (ev_title apple_google_event)) = true /\
  str_mem "google" (firstn 5 (extract_key_terms (ev_title apple_google_event))) = true /\
  str_mem "google" (py_split (build_news_query apple_google_event 8)) = true /\
  str_mem (quote "Google") (py_split (build_news_query apple_google_event 8)) = false.
Proof. repeat split; vm_compute; reflexivity. Qed.







(** * Further properties of the pipeline and its clients *)

(** ** Term extraction *)

Lemma split_aux_nospace l cur w :
  (forall c, In c cur -> is_space c = false) -> In w (split_aux l cur) ->
  w <> [] /\ forall c, In c w -> (In c l \/ In c cur) /\ is_space c = false.
Proof.
  revert cur w. induction l as [|x l IH]; intros cur w Hcur Hw; simpl in Hw.
  - destruct cur as [|y cur]; [destruct Hw|]. destruct Hw as [<-|[]].
    split.
    + intros E. apply (f_equal (@length ascii)) in E. rewrite length_rev in E. discriminate.
    + intros c Hc. apply in_rev in Hc. split; [right; exact Hc|apply Hcur; exact Hc].
  - destruct (is_space x) eqn:Ex.
    + assert (Hsub : forall w', In w' (split_aux l []) ->
                w' <> [] /\ forall c, In c w' -> (In c (x :: l) \/ In c cur) /\ is_space c = false).
      { intros w' Hw'. destruct (IH [] w' (fun c H => match H with end) Hw') as [Hne Hc].
        split; [exact Hne|]. intros c Hin. destruct (Hc c Hin) as [[H|[]] Hs].
        split; [left; right; exact H|exact Hs]. }
      destruct cur as [|y cur]; [apply Hsub; exact Hw|].
      destruct Hw as [<-|Hw]; [|apply Hsub; exact Hw].
      split.
      * intros E. apply (f_equal (@length ascii)) in E. rewrite length_rev in E. discriminate.
      * intros c Hc. apply in_rev in Hc. split; [right; exact Hc|apply Hcur; exact Hc].
    + destruct (IH (x :: cur) w) as [Hne Hc]; [|exact Hw|].
      * intros c [<-|Hc]; [exact Ex|apply Hcur; exact Hc].
      * split; [exact Hne|]. intros c Hin. destruct (Hc c Hin) as [[H|[<-|H]] Hs];
          (split; [|exact Hs]).
        -- left. right. exact H.
        -- left. left. reflexivity.
        -- right. exact H.
Qed.

Lemma string_length_chars s : String.length s = length (list_ascii_of_string s).
Proof. induction s as [|c s IH]; simpl; [reflexivity|]. rewrite IH. reflexivity. Qed.

(** Every extracted term is longer than two characters, not a stop word,
    and made of word characters none of which is an upper-case letter. *)
Lemma key_term_props s w :
  In w (extract_key_terms s) ->
  (2 < String.length w)%nat /\ str_mem w STOP_WORDS = false /\
  forall c, In c (list_ascii_of_string w) -> is_word c = true /\ is_upper c = false.
Proof.
  unfold extract_key_terms. intros Hw. apply filter_In in Hw as [Hw Hf].
  apply andb_true_iff in Hf as [Hs Hl]. apply negb_true_iff in Hs.
  split; [apply Nat.ltb_lt; exact Hl|]. split; [exact Hs|].
  unfold py_split in Hw. apply in_map_iff in Hw as [p [<- Hp]].
  rewrite list_ascii_of_string_of_list_ascii. intros c Hc.
  destruct (split_aux_nospace _ [] _ (fun c H => match H with end) Hp) as [_ Hch].
  destruct (Hch c Hc) as [[Hin|[]] Hsp]. revert Hsp.
  unfold sub_nonword, py_lower in Hin. rewrite !list_ascii_str_map in Hin.
  apply in_map_iff in Hin as [c1 [<- Hc1]]. apply in_map_iff in Hc1 as [c0 [<- _]].
  destruct (is_word (lower_char c0) || is_space (lower_char c0)) eqn:E; intros Hsp.
  - rewrite Hsp, orb_false_r in E. split; [exact E|apply lower_char_not_upper].
  - vm_compute in Hsp. discriminate Hsp.
Qed.

Lemma list_ascii_append a b :
  list_ascii_of_string (String.append a b) = list_ascii_of_string a ++ list_ascii_of_string b.
Proof. induction a as [|c a IH]; simpl; [reflexivity|]. rewrite IH. reflexivity. Qed.

Lemma str_map_id f s :
  (forall c, In c (list_ascii_of_string s) -> f c = c) -> str_map f s = s.
Proof.
  induction s as [|c s IH]; intros H; simpl; [reflexivity|].
  rewrite H by (left; reflexivity). rewrite IH; [reflexivity|].
  intros d Hd. apply H. right. exact Hd.
Qed.

Lemma in_concat_chars sep ws c :
  In c (list_ascii_of_string (String.concat sep ws)) ->
  In c (list_ascii_of_string sep) \/ exists w, In w ws /\ In c (list_ascii_of_string w).
Proof.
  induction ws as [|w ws IH]; [intros []|].
  destruct ws as [|w' ws'].
  - intros Hc. right. exists w. split; [left; reflexivity|exact Hc].
  - change (String.concat sep (w :: w' :: ws'))
      with (String.append w (String.append sep (String.concat sep (w' :: ws')))).
    rewrite !list_ascii_append. intros Hc.
    apply in_app_or in Hc as [Hc|Hc]; [right; exists w; split; [left; reflexivity|exact Hc]|].
    apply in_app_or in Hc as [Hc|Hc]; [left; exact Hc|].
    destruct (IH Hc) as [H|(v & Hv & Hcv)]; [left; exact H|].
    right. exists v. split; [right; exact Hv|exact Hcv].
Qed.

Lemma split_aux_app_nospace l1 l2 cur :
  (forall c, In c l1 -> is_space c = false) ->
  split_aux (l1 ++ l2) cur = split_aux l2 (rev l1 ++ cur).
Proof.
  revert cur. induction l1 as [|x l1 IH]; intros cur H; simpl; [reflexivity|].
  rewrite (H x (or_introl eq_refl)). rewrite IH by (intros c Hc; apply H; right; exact Hc).
  rewrite <- app_assoc. reflexivity.
Qed.

Lemma chars_nonempty w : w <> EmptyString -> list_ascii_of_string w <> [].
Proof. destruct w; simpl; [contradiction|discriminate]. Qed.

Lemma rev_app_nil_ne (l : list ascii) : l <> [] -> rev l ++ [] <> [].
Proof.
  intros H E. rewrite app_nil_r in E. apply H.
  rewrite <- (rev_involutive l), E. reflexivity.
Qed.

(** [' '.join(ws).split() == ws] for non-empty words without whitespace. *)
Lemma py_split_join ws :
  (forall w, In w ws -> w <> EmptyString /\
     forall c, In c (list_ascii_of_string w) -> is_space c = false) ->
  py_split (py_join " " ws) = ws.
Proof.
  intros H. unfold py_split, py_join.
  enough (E : split_aux (list_ascii_of_string (String.concat " " ws)) []
              = map list_ascii_of_string ws).
  { rewrite E, map_map. rewrite (map_ext _ (fun x => x)) by apply string_of_list_ascii_of_string.
    apply map_id. }
  induction ws as [|w ws IH]; [reflexivity|].
  destruct (H w (or_introl eq_refl)) as [Hne Hsp].
  pose proof (rev_app_nil_ne _ (chars_nonempty _ Hne)) as Hr.
  destruct ws as [|w' ws'].
  - change (String.concat " " [w]) with w.
    replace (list_ascii_of_string w) with (list_ascii_of_string w ++ []) at 1
      by apply app_nil_r.
    rewrite split_aux_app_nospace by exact Hsp. cbn [split_aux].
    destruct (rev (list_ascii_of_string w) ++ []) eqn:E; [contradiction|].
    rewrite <- E, app_nil_r, rev_involutive. reflexivity.
  - change (String.concat " " (w :: w' :: ws'))
      with (String.append w (String.append " " (String.concat " " (w' :: ws')))).
    rewrite !list_ascii_append, split_aux_app_nospace by exact Hsp.
    cbn [list_ascii_of_string app split_aux].
    change (is_space " "%char) with true. cbv iota.
    destruct (rev (list_ascii_of_string w) ++ []) eqn:E; [contradiction|].
    rewrite <- E, app_nil_r, rev_involutive.
    rewrite IH by (intros v Hv; apply H; right; exact Hv). reflexivity.
Qed.

Lemma word_not_space c : is_word c = true -> is_space c = false.
Proof.
  destruct c as [[] [] [] [] [] [] [] []]; intros H; vm_compute in H |- *;
    first [reflexivity | discriminate H].
Qed.

Lemma filter_all {A} (f : A -> bool) l : (forall x, In x l -> f x = true) -> filter f l = l.
Proof.
  induction l as [|x l IH]; intros H; simpl; [reflexivity|].
  rewrite H by (left; reflexivity). rewrite IH; [reflexivity|].
  intros y Hy. apply H. right. exact Hy.
Qed.

(** X1: every term of [extract_key_terms] is longer than two characters,
    is not a stop word, and consists only of word characters ([\w]): no
    whitespace, no punctuation. *)
Theorem extract_key_terms_shape s w :
  In w (extract_key_terms s) ->
  (2 < String.length w)%nat /\ ~ In w STOP_WORDS /\
  forall c, In c (list_ascii_of_string w) -> is_word c = true.
Proof.
  intros Hw. destruct (key_term_props s w Hw) as (Hl & Hs & Hc).
  split; [exact Hl|]. split; [apply str_mem_false; exact Hs|].
  intros c Hin. apply (Hc c Hin).
Qed.

Lemma extract_key_terms_shape_witness :
  In "federal"%string (extract_key_terms "The Federal-Reserve, in 2025!") /\
  ((2 < String.length "federal")%nat /\ ~ In "federal"%string STOP_WORDS /\
   forall c, In c (list_ascii_of_string "federal") -> is_word c = true).
Proof.
  assert (H : In "federal"%string (extract_key_terms "The Federal-Reserve, in 2025!"))
    by (vm_compute; tauto).
  split; [exact H|]. exact (extract_key_terms_shape _ _ H).
Defined.

(** X2: extracting the key terms of the space-joined key terms gives them
    back: [extract_key_terms(' '.join(extract_key_terms(s)))] equals
    [extract_key_terms(s)]. *)
Theorem extract_key_terms_idempotent s :
  extract_key_terms (py_join " " (extract_key_terms s)) = extract_key_terms s.
Proof.
  set (T := extract_key_terms s).
  assert (HT : forall w, In w T -> (2 < String.length w)%nat /\ str_mem w STOP_WORDS = false /\
                 forall c, In c (list_ascii_of_string w) -> is_word c = true /\ is_upper c = false)
    by (intros w Hw; apply (key_term_props s); exact Hw).
  assert (Hch : forall c, In c (list_ascii_of_string (py_join " " T)) ->
                  c = " "%char \/ (is_word c = true /\ is_upper c = false)).
  { intros c Hc. apply in_concat_chars in Hc as [[<-|[]]|(w & Hw & Hcw)]; [left; reflexivity|].
    right. apply (HT w Hw). exact Hcw. }
  assert (Hl : py_lower (py_join " " T) = py_join " " T).
  { apply str_map_id. intros c Hc. destruct (Hch c Hc) as [->|[_ Hu]]; [reflexivity|].
    unfold lower_char. rewrite Hu. reflexivity. }
  assert (Hs : sub_nonword (py_join " " T) = py_join " " T).
  { apply str_map_id. intros c Hc. destruct (Hch c Hc) as [->|[Hw _]]; [reflexivity|].
    rewrite Hw. reflexivity. }
  assert (Hp : py_split (py_join " " T) = T).
  { apply py_split_join. intros w Hw. destruct (HT w Hw) as (Hlen & _ & Hc). split.
    - intros ->. simpl in Hlen. lia.
    - intros c Hcw. apply word_not_space. apply (Hc c Hcw). }
  unfold extract_key_terms at 1. cbv zeta. rewrite Hl, Hs, Hp.
  apply filter_all. intros w Hw. destruct (HT w Hw) as (Hlen & Hst & _).
  rewrite Hst. apply Nat.ltb_lt in Hlen. rewrite Hlen. reflexivity.
Qed.

(** ** The term list of [build_news_query] *)

(** [l1] is a subsequence of [l2]: [l2] with some elements left out. *)
Inductive subseq {A : Type} : list A -> list A -> Prop :=
| subseq_nil : subseq [] []
| subseq_skip x l1 l2 : subseq l1 l2 -> subseq l1 (x :: l2)
| subseq_keep x l1 l2 : subseq l1 l2 -> subseq (x :: l1) (x :: l2).

Lemma subseq_nil_l {A} (l : list A) : subseq [] l.
Proof. induction l; constructor; assumption. Qed.

Lemma subseq_in {A} (l1 l2 : list A) x : subseq l1 l2 -> In x l1 -> In x l2.
Proof.
  induction 1 as [|y l1 l2 _ IH|y l1 l2 _ IH]; intros Hx; [exact Hx|right; apply IH; exact Hx|].
  destruct Hx as [<-|Hx]; [left; reflexivity|right; apply IH; exact Hx].
Qed.

(** The tag loop appends a subsequence of the tags, none generic and none
    equal, ignoring case, to a term before it. *)
Lemma add_tags_shape mt tags terms :
  exists T, add_tags mt tags terms = terms ++ T /\ subseq T tags /\
    (forall t, In t T -> ~ In (py_lower t) GENERIC_TAGS /\ ~ In (py_lower t) (map py_lower terms)) /\
    NoDup (map py_lower T).
Proof.
  revert terms. induction tags as [|tag tags IH]; intros terms; cbn [add_tags].
  - exists []. rewrite app_nil_r. split; [reflexivity|]. split; [constructor|].
    split; [intros t []|constructor].
  - destruct (negb (str_mem (py_lower tag) GENERIC_TAGS)
              && negb (str_mem (py_lower tag) (map py_lower terms))) eqn:E.
    + apply andb_true_iff in E as [Eg Et]. apply negb_true_iff, str_mem_false in Eg, Et.
      destruct (mt <=? Z.of_nat (length (terms ++ [tag]))).
      * exists [tag]. split; [reflexivity|]. split; [constructor; apply subseq_nil_l|].
        split; [intros t [<-|[]]; split; assumption|]. constructor; [intros []|constructor].
      * destruct (IH (terms ++ [tag])) as (T & HE & HS & HF & HN).
        exists (tag :: T). split; [rewrite HE, <- app_assoc; reflexivity|].
        split; [constructor; exact HS|]. split.
        -- intros t [<-|Ht]; [split; assumption|].
           destruct (HF t Ht) as [Hg Hn]. split; [exact Hg|].
           intros Hin. apply Hn. rewrite map_app. apply in_or_app. left. exact Hin.
        -- cbn [map]. constructor; [|exact HN].
           intros Hin. apply in_map_iff in Hin as [t [Htl Ht]].
           destruct (HF t Ht) as [_ Hn]. apply Hn. rewrite Htl, map_app. apply in_or_app.
           right. left. reflexivity.
    + destruct (IH terms) as (T & HE & HS & HF & HN). exists T.
      split; [exact HE|]. split; [constructor; exact HS|]. split; [exact HF|exact HN].
Qed.

(** The entity loop puts, in front, the quoted entities of a subsequence of
    the detected ones, all non-stop-words, in reverse order. *)
Lemma add_entities_shape mt ents terms :
  exists E, add_entities mt ents terms = rev (map quote E) ++ terms /\ subseq E ents /\
    Forall (fun e => not_stop e = true) E.
Proof.
  revert terms. induction ents as [|e ents IH]; intros terms; cbn [add_entities].
  - exists []. split; [reflexivity|]. split; constructor.
  - change (negb (str_mem (py_lower e) STOP_WORDS)) with (not_stop e).
    destruct (not_stop e && negb (str_mem e terms)) eqn:E0.
    + apply andb_true_iff in E0 as [Es _].
      destruct (mt <=? Z.of_nat (length (quote e :: terms))).
      * exists [e]. split; [reflexivity|]. split; [constructor; apply subseq_nil_l|].
        constructor; [exact Es|constructor].
      * destruct (IH (quote e :: terms)) as (E & HE & HS & HF).
        exists (e :: E). split; [rewrite HE; cbn [map rev]; rewrite <- app_assoc; reflexivity|].
        split; [constructor; exact HS|constructor; [exact Es|exact HF]].
    + destruct (IH terms) as (E & HE & HS & HF). exists E.
      split; [exact HE|]. split; [constructor; exact HS|exact HF].
Qed.

Lemma py_lower_key_term s w : In w (extract_key_terms s) -> py_lower w = w.
Proof.
  intros Hw. destruct (key_term_props s w Hw) as (_ & _ & Hc).
  apply str_map_id. intros c Hin. unfold lower_char. rewrite (proj2 (Hc c Hin)). reflexivity.
Qed.

(** X3: before the final [terms[:max_terms]], the term list of
    [build_news_query] is: quoted entities (a subsequence of the detected
    entities, each not a stop word) in reverse detection order, then the
    first five title terms, then a subsequence of [event.tags] in tag
    order. *)
Theorem build_terms_shape ev mt :
  exists E T,
    build_terms ev mt = rev (map quote E) ++ firstn 5 (extract_key_terms (ev_title ev)) ++ T /\
    subseq E (find_entities (ev_title ev)) /\ Forall (fun e => not_stop e = true) E /\
    subseq T (ev_tags ev).
Proof.
  unfold build_terms, collect_terms.
  destruct (add_tags_shape mt (ev_tags ev) (firstn 5 (extract_key_terms (ev_title ev))))
    as (T & HT & HS & _ & _).
  rewrite HT.
  destruct (add_entities_shape mt (find_entities (ev_title ev))
              (firstn 5 (extract_key_terms (ev_title ev)) ++ T)) as (E & HE & HES & HF).
  exists E, T. split; [exact HE|]. split; [exact HES|]. split; [exact HF|exact HS].
Qed.

(** X4: the tags [build_news_query] keeps are not generic (ignoring case),
    pairwise different ignoring case, and none equals, ignoring case, one
    of the first five title terms. *)
Theorem build_query_tags_filtered ev mt :
  exists T,
    collect_terms ev mt = firstn 5 (extract_key_terms (ev_title ev)) ++ T /\
    subseq T (ev_tags ev) /\
    (forall t, In t T -> ~ In (py_lower t) GENERIC_TAGS /\
                         ~ In (py_lower t) (firstn 5 (extract_key_terms (ev_title ev)))) /\
    NoDup (map py_lower T).
Proof.
  unfold collect_terms.
  destruct (add_tags_shape mt (ev_tags ev) (firstn 5 (extract_key_terms (ev_title ev))))
    as (T & HT & HS & HF & HN).
  exists T. split; [exact HT|]. split; [exact HS|]. split; [|exact HN].
  intros t Ht. destruct (HF t Ht) as [Hg Hn]. split; [exact Hg|].
  intros Hin. apply Hn. apply in_map_iff. exists (py_lower t). split; [|exact Hin].
  apply (py_lower_key_term (ev_title ev)). apply (in_firstn_in _ 5). exact Hin.
Qed.

(** ** The time window *)

Lemma dt_add_some t td r : dt_add t td = Some r -> r = t + td.
Proof. unfold dt_add. destruct (dt_in_range (t + td)); intros H; [injection H; auto|discriminate]. Qed.

(** The two ends of a returned window. *)
Lemma time_window_parts now ev dflt buf f t :
  get_time_window now ev dflt buf = Some (f, t) ->
  t = match ev_end_date ev with
      | Some e => if now <? to_naive e then Z.min (to_naive e) (now + DAY) else now
      | None => now
      end /\
  f = match ev_start_date ev with
      | Some s => Z.max (to_naive s - buf * DAY) (now - 30 * DAY)
      | None => now - dflt * DAY
      end.
Proof.
  unfold get_time_window. intros H.
  destruct (match ev_end_date ev with Some _ => _ | None => _ end) as [t0|] eqn:Et;
    [|discriminate].
  assert (Ht : t0 = match ev_end_date ev with
                    | Some e => if now <? to_naive e then Z.min (to_naive e) (now + DAY) else now
                    | None => now end).
  { revert Et. destruct (ev_end_date ev) as [e|]; [|intros E; injection E; auto].
    destruct (now <? to_naive e); [|intros E; injection E; auto].
    destruct (timedelta_days 1) as [one|] eqn:E1; [|discriminate].
    destruct (dt_add now one) as [n1|] eqn:E2; [|discriminate].
    apply timedelta_days_some in E1. apply dt_add_some in E2. subst.
    intros E. injection E as <-. reflexivity. }
  clear Et.
  destruct (ev_start_date ev) as [s|].
  - destruct (timedelta_days buf) as [b|] eqn:Eb; [|discriminate].
    destruct (dt_sub (to_naive s) b) as [f0|] eqn:Ef; [|discriminate].
    destruct (timedelta_days 30) as [th|] eqn:Eth; [|discriminate].
    destruct (dt_sub now th) as [m|] eqn:Em; [|discriminate].
    injection H as <- <-.
    apply timedelta_days_some in Eb, Eth. apply dt_sub_some in Ef, Em. subst.
    split; reflexivity.
  - destruct (timedelta_days dflt) as [b|] eqn:Eb; [|discriminate].
    destruct (dt_sub now b) as [f0|] eqn:Ef; [|discriminate].
    injection H as <- <-.
    apply timedelta_days_some in Eb. apply dt_sub_some in Ef. subst.
    split; reflexivity.
Qed.

Definition window_event (start end_ : Z) : Event :=
  mkEvent "6" "window" "Event" EmptyString (Some (mkDatetime start None))
    (Some (mkDatetime end_ (Some 0))) None [].

(** X5: the [to_date] of a returned window lies between [now] and one day
    after [now], and it is [now] exactly when the event has no [end_date]
    or its [end_date] (offset dropped) is not after [now]. *)
Theorem time_window_to_date_bounds now ev dflt buf f t :
  get_time_window now ev dflt buf = Some (f, t) ->
  now <= t <= now + DAY /\
  (t = now <-> forall e, ev_end_date ev = Some e -> to_naive e <= now).
Proof.
  intros H. destruct (time_window_parts _ _ _ _ _ _ H) as [-> _]. pose proof DAY_pos.
  destruct (ev_end_date ev) as [e|].
  - destruct (now <? to_naive e) eqn:E.
    + apply Z.ltb_lt in E. split; [lia|]. split; [lia|].
      intros Hle. specialize (Hle e eq_refl). lia.
    + apply Z.ltb_ge in E. split; [lia|]. split; [|reflexivity].
      intros _ e' He'. injection He' as <-. exact E.
  - split; [lia|]. split; [|reflexivity]. intros _ e' He'. discriminate.
Qed.

Lemma time_window_to_date_bounds_witness :
  get_time_window demo_now (window_event (demo_now - 3 * DAY) (demo_now + 10 * DAY)) 7 2
    = Some (demo_now - 5 * DAY, demo_now + DAY) /\
  (demo_now <= demo_now + DAY <= demo_now + DAY /\
   (demo_now + DAY = demo_now <->
    forall e, ev_end_date (window_event (demo_now - 3 * DAY) (demo_now + 10 * DAY)) = Some e ->
      to_naive e <= demo_now)).
Proof.
  assert (H : get_time_window demo_now (window_event (demo_now - 3 * DAY) (demo_now + 10 * DAY)) 7 2
              = Some (demo_now - 5 * DAY, demo_now + DAY)) by (vm_compute; reflexivity).
  split; [exact H|]. exact (time_window_to_date_bounds _ _ _ _ _ _ H).
Defined.

(** X6: the window can be inverted: when [start_date - buffer_days] lies
    more than one day after [now], a returned window has
    [to_date < from_date]. *)
Theorem time_window_inverted now ev dflt buf s f t :
  ev_start_date ev = Some s -> now + DAY < to_naive s - buf * DAY ->
  get_time_window now ev dflt buf = Some (f, t) -> t < f.
Proof.
  intros Hs Hlt H. destruct (time_window_parts _ _ _ _ _ _ H) as [Ht Hf]. rewrite Hs in Hf. subst f.
  assert (t <= now + DAY).
  { rewrite Ht. pose proof DAY_pos. destruct (ev_end_date ev) as [e|]; [|lia].
    destruct (now <? to_naive e); lia. }
  lia.
Qed.

Lemma time_window_inverted_witness :
  demo_now + DAY < (demo_now + 10 * DAY) - 2 * DAY /\
  get_time_window demo_now (window_event (demo_now + 10 * DAY) (demo_now + 20 * DAY)) 7 2
    = Some (demo_now + 8 * DAY, demo_now + DAY) /\
  demo_now + DAY < demo_now + 8 * DAY.
Proof.
  assert (H1 : demo_now + DAY < (demo_now + 10 * DAY) - 2 * DAY) by (vm_compute; reflexivity).
  assert (H2 : get_time_window demo_now (window_event (demo_now + 10 * DAY) (demo_now + 20 * DAY)) 7 2
               = Some (demo_now + 8 * DAY, demo_now + DAY)) by (vm_compute; reflexivity).
  split; [exact H1|]. split; [exact H2|].
  exact (time_window_inverted demo_now (window_event (demo_now + 10 * DAY) (demo_now + 20 * DAY))
           7 2 (mkDatetime (demo_now + 10 * DAY) None) _ _
           eq_refl H1 H2).
Defined.

(** ** Scoring *)

Lemma filter_length_le {A} (f : A -> bool) l : (length (filter f l) <= length l)%nat.
Proof. induction l as [|x l IH]; simpl; [lia|]. destruct (f x); simpl; lia. Qed.

(** Rule 3 on its own: 5 points and one tag per entity found. *)
Lemma entity_rule_st0 ents t :
  entity_rule ents t st0 =
  (5 * Z.of_nat (length (filter (fun e => py_in (py_lower e) t) ents)),
   map (String.append "entity:") (filter (fun e => py_in (py_lower e) t) ents)).
Proof.
  induction ents as [|e ents IH]; [reflexivity|].
  change (entity_rule (e :: ents) t st0)
    with (entity_rule ents t (if py_in (py_lower e) t
                              then (fst st0 + 5, snd st0 ++ [String.append "entity:" e])
                              else st0)).
  cbn [filter]. destruct (py_in (py_lower e) t).
  - rewrite entity_rule_add, IH. unfold add_st, st0. cbn [fst snd length map app].
    f_equal. lia.
  - exact IH.
Qed.

Lemma title_rule_bound qt t : fst (title_rule qt t st0) <= 3 * Z.of_nat (length qt).
Proof.
  unfold title_rule. rewrite count_matches_length.
  pose proof (filter_length_le (fun term => py_in (py_lower (strip_dq term)) t) qt).
  destruct (0 <? _); cbn [fst st0]; lia.
Qed.

Lemma desc_rule_bound qt t : fst (desc_rule qt t st0) <= Z.of_nat (length qt).
Proof.
  unfold desc_rule. rewrite count_matches_length.
  pose proof (filter_length_le (fun term => py_in (py_lower (strip_dq term)) t) qt).
  destruct (0 <? _); cbn [fst st0]; lia.
Qed.

Lemma recency_rule_bound now p : fst (recency_rule now p st0) <= 2.
Proof.
  unfold recency_rule. destruct p as [d|]; [|simpl; lia].
  destruct (days_old now d <=? 1); [simpl; lia|]. destruct (days_old now d <=? 3); simpl; lia.
Qed.

Lemma quality_rule_bound s : fst (quality_rule s st0) <= 1.
Proof. unfold quality_rule. destruct (existsb _ _); simpl; lia. Qed.

(** X7: the score of [score_article] is at most 4 points per query term
    (3 for the title, 1 for the description), 5 per entity detected in the
    event title, plus 3 (recency and source quality). *)
Theorem score_article_upper_bound now a ev qt :
  score (score_article now a ev qt)
  <= 4 * Z.of_nat (length qt) + 5 * Z.of_nat (length (find_entities (ev_title ev))) + 3.
Proof.
  pose proof (score_article_parts now a ev qt) as P. cbv zeta in P. destruct P as [Hs _].
  rewrite Hs, entity_rule_st0. cbn [fst].
  pose proof (title_rule_bound qt (py_lower (or_empty (a_title a)))).
  pose proof (desc_rule_bound qt (py_lower (or_empty (a_description a)))).
  pose proof (recency_rule_bound now (a_published_at a)).
  pose proof (quality_rule_bound (py_lower (or_empty (a_source_name a)))).
  pose proof (filter_length_le (fun e => py_in (py_lower e) (py_lower (or_empty (a_title a))))
                (find_entities (ev_title ev))).
  lia.
Qed.

Definition is_entity_tag (r : string) : bool := String.prefix "entity:" r.

(** X8: the [entity:] reasons of [score_article] are, in detection order
    and with repetitions, [entity:<e>] for each entity [e] detected in the
    event title whose lower-cased form occurs in the lower-cased article
    title (or in the empty string when the article has no title). *)
Theorem score_article_entity_reasons now a ev qt :
  filter is_entity_tag (match_reasons (score_article now a ev qt))
  = map (String.append "entity:")
      (filter (fun e => py_in (py_lower e) (py_lower (or_empty (a_title a))))
         (find_entities (ev_title ev))).
Proof.
  pose proof (score_article_parts now a ev qt) as P. cbv zeta in P. destruct P as [_ Hr].
  rewrite Hr, !filter_app, entity_rule_st0. cbn [snd].
  assert (HT : filter is_entity_tag (snd (title_rule qt (py_lower (or_empty (a_title a))) st0)) = []).
  { unfold title_rule. destruct (0 <? _); reflexivity. }
  assert (HD : filter is_entity_tag
                 (snd (desc_rule qt (py_lower (or_empty (a_description a))) st0)) = []).
  { unfold desc_rule. destruct (0 <? _); reflexivity. }
  assert (HR : filter is_entity_tag (snd (recency_rule now (a_published_at a) st0)) = []).
  { unfold recency_rule. destruct (a_published_at a) as [d|]; [|reflexivity].
    destruct (days_old now d <=? 1); [reflexivity|]. destruct (days_old now d <=? 3); reflexivity. }
  assert (HK : filter is_entity_tag
                 (snd (quality_rule (py_lower (or_empty (a_source_name a))) st0)) = []).
  { unfold quality_rule. destruct (existsb _ _); reflexivity. }
  rewrite HT, HD, HR, HK, app_nil_r. cbn [app].
  apply filter_all. intros r Hr'. apply in_map_iff in Hr' as [e [<- _]].
  apply prefix_app_self.
Qed.

(** ** The orchestrator *)

Lemma score_article_nonneg_aux now a ev qt : 0 <= score (score_article now a ev qt).
Proof.
  pose proof (score_article_parts now a ev qt) as P. cbv zeta in P.
  destruct P as [Hs _]. rewrite Hs.
  destruct (title_rule_good qt (py_lower (or_empty (a_title a)))) as [H1 _].
  destruct (desc_rule_good qt (py_lower (or_empty (a_description a)))) as [H2 _].
  destruct (entity_rule_good (find_entities (ev_title ev)) (py_lower (or_empty (a_title a))))
    as [H3 _].
  destruct (recency_rule_good now (a_published_at a)) as [H4 _].
  destruct (quality_rule_good (py_lower (or_empty (a_source_name a)))) as [H5 _].
  lia.
Qed.

Lemma score_all_in sn k ev qt arts s :
  In s (score_all sn k ev qt arts) ->
  exists i a, nth_error arts i = Some a /\ s = score_article (sn (k + i)%nat) a ev qt.
Proof.
  revert k. induction arts as [|a arts IH]; intros k Hs; [destruct Hs|].
  destruct Hs as [<-|Hs].
  - exists O, a. rewrite Nat.add_0_r. split; reflexivity.
  - destruct (IH (S k) Hs) as (i & b & Hi & ->). exists (S i), b. split; [exact Hi|].
    rewrite Nat.add_succ_r. reflexivity.
Qed.

(** X9: once the window is computed and the search answered, the number of
    returned articles is [min(max_articles, K)] for [max_articles >= 0] and
    [K - |max_articles|] (at least 0) for a negative [max_articles], [K]
    being the number of fetched articles scoring at least [min_score]. *)
Theorem match_news_result_length search wn sn event ma ms f t arts tot res :
  get_time_window wn event 7 2 = Some (f, t) ->
  search (build_news_query event 8) f t "relevancy"%string 20 = PyOk (arts, tot) ->
  match_news_to_event search wn sn event ma ms = PyOk res ->
  length res = if 0 <=? ma then Nat.min (Z.to_nat ma) (length (kept_candidates sn event ms arts))
               else (length (kept_candidates sn event ms arts) - Z.to_nat (- ma))%nat.
Proof.
  intros Hw Hs H. unfold match_news_to_event in H. rewrite Hw, Hs in H. injection H as <-.
  unfold kept_candidates, keeps.
  set (K := filter _ _).
  unfold py_take. rewrite (Permutation_length (sort_desc_perm K)).
  destruct (0 <=? ma); rewrite length_firstn, (Permutation_length (sort_desc_perm K)); lia.
Qed.

Lemma match_news_result_length_witness :
  get_time_window demo_now demo_event 7 2 = Some (demo_now - 7 * DAY, demo_now) /\
  demo_search (build_news_query demo_event 8) (demo_now - 7 * DAY) demo_now "relevancy"%string 20
    = PyOk (demo_articles, 4) /\
  match_news_to_event demo_search demo_now (fun _ => demo_now) demo_event 1 2 = PyOk (firstn 1 demo_result) /\
  length (firstn 1 demo_result)
  = if 0 <=? 1 then Nat.min (Z.to_nat 1)
                       (length (kept_candidates (fun _ => demo_now) demo_event 2 demo_articles))
    else (length (kept_candidates (fun _ => demo_now) demo_event 2 demo_articles)
          - Z.to_nat (- 1))%nat.
Proof.
  assert (H1 : get_time_window demo_now demo_event 7 2 = Some (demo_now - 7 * DAY, demo_now))
    by (vm_compute; reflexivity).
  assert (H2 : demo_search (build_news_query demo_event 8) (demo_now - 7 * DAY) demo_now
                 "relevancy"%string 20 = PyOk (demo_articles, 4)) by reflexivity.
  assert (H3 : match_news_to_event demo_search demo_now (fun _ => demo_now) demo_event 1 2
               = PyOk (firstn 1 demo_result)) by (vm_compute; reflexivity).
  split; [exact H1|]. split; [exact H2|]. split; [exact H3|].
  exact (match_news_result_length demo_search demo_now (fun _ => demo_now) demo_event 1 2
           _ _ _ _ _ H1 H2 H3).
Defined.

(** X10: every article returned by [match_news_to_event] is
    [score_article] applied to one of the articles the search returned (the
    [i]-th, scored at the [i]-th clock reading), with the event and the
    words of the query built for it. *)
Theorem match_news_provenance search wn sn event ma ms res :
  match_news_to_event search wn sn event ma ms = PyOk res ->
  Forall (fun s => exists f t arts tot i a,
      get_time_window wn event 7 2 = Some (f, t) /\
      search (build_news_query event 8) f t "relevancy"%string 20 = PyOk (arts, tot) /\
      nth_error arts i = Some a /\
      s = score_article (sn i) a event (py_split (build_news_query event 8))) res.
Proof.
  intros H. destruct (match_news_ok_inv _ _ _ _ _ _ _ H) as [->|(f & t & arts & tot & Hw & Hs & ->)];
    [constructor|].
  apply Forall_forall. intros s Hin.
  destruct (py_take_prefix ma (sort_desc (kept_candidates sn event ms arts))) as [m Hm].
  rewrite Hm in Hin. apply in_firstn_in in Hin.
  apply (Permutation_in _ (sort_desc_perm _)) in Hin.
  unfold kept_candidates in Hin. apply filter_In in Hin as [Hin _].
  apply score_all_in in Hin as (i & a & Hi & ->).
  exists f, t, arts, tot, i, a. split; [exact Hw|]. split; [exact Hs|]. split; [exact Hi|].
  reflexivity.
Qed.

Lemma match_news_provenance_witness :
  match_news_to_event demo_search demo_now (fun _ => demo_now) demo_event 5 2 = PyOk demo_result /\
  Forall (fun s => exists f t arts tot i a,
      get_time_window demo_now demo_event 7 2 = Some (f, t) /\
      demo_search (build_news_query demo_event 8) f t "relevancy"%string 20 = PyOk (arts, tot) /\
      nth_error arts i = Some a /\
      s = score_article ((fun _ => demo_now) i) a demo_event
            (py_split (build_news_query demo_event 8))) demo_result.
Proof.
  assert (H : match_news_to_event demo_search demo_now (fun _ => demo_now) demo_event 5 2
              = PyOk demo_result) by (vm_compute; reflexivity).
  split; [exact H|].
  exact (match_news_provenance demo_search demo_now (fun _ => demo_now) demo_event 5 2 _ H).
Defined.


(** X12: with [min_score <= 0] nothing is filtered out: the result is the
    first [max_articles] of all fetched articles, scored and sorted by
    descending score. *)
Theorem match_news_min_score_nonpos search wn sn event ma ms f t arts tot :
  (ms <= 0)%Q ->
  get_time_window wn event 7 2 = Some (f, t) ->
  search (build_news_query event 8) f t "relevancy"%string 20 = PyOk (arts, tot) ->
  match_news_to_event search wn sn event ma ms
  = PyOk (py_take ma (sort_desc (score_all sn 0 event (py_split (build_news_query event 8)) arts))).
Proof.
  intros Hms Hw Hs. unfold match_news_to_event. rewrite Hw, Hs.
  rewrite filter_all; [reflexivity|].
  intros s Hin. apply score_all_in in Hin as (i & a & _ & ->).
  apply Qle_bool_iff. apply Qle_trans with 0%Q; [exact Hms|].
  change 0%Q with (inject_Z 0). rewrite <- Zle_Qle. apply score_article_nonneg_aux.
Qed.

Lemma match_news_min_score_nonpos_witness :
  (0 <= 0)%Q /\
  get_time_window demo_now demo_event 7 2 = Some (demo_now - 7 * DAY, demo_now) /\
  demo_search (build_news_query demo_event 8) (demo_now - 7 * DAY) demo_now "relevancy"%string 20
    = PyOk (demo_articles, 4) /\
  match_news_to_event demo_search demo_now (fun _ => demo_now) demo_event 5 0
  = PyOk (py_take 5 (sort_desc (score_all (fun _ => demo_now) 0 demo_event
                                  (py_split (build_news_query demo_event 8)) demo_articles))).
Proof.
  assert (H0 : (0 <= 0)%Q) by (vm_compute; discriminate).
  assert (H1 : get_time_window demo_now demo_event 7 2 = Some (demo_now - 7 * DAY, demo_now))
    by (vm_compute; reflexivity).
  assert (H2 : demo_search (build_news_query demo_event 8) (demo_now - 7 * DAY) demo_now
                 "relevancy"%string 20 = PyOk (demo_articles, 4)) by reflexivity.
  split; [exact H0|]. split; [exact H1|]. split; [exact H2|].
  exact (match_news_min_score_nonpos demo_search demo_now (fun _ => demo_now) demo_event 5 0
           _ _ _ _ H0 H1 H2).
Defined.

(** ** The clients *)

Ltac opt_cases o :=
  let x := fresh "x" in
  let E := fresh "E" in
  destruct o as [x|];
  [destruct (String.eqb x EmptyString) eqn:E; [apply String.eqb_eq in E; subst x|]|].

(** X13: whatever optional filters [get_top_headlines] is given, the
    request carries a non-empty [country], [category], [sources] or [q]
    parameter, its [pageSize] is at most 100, and with no filter given
    ([None] or empty) it asks for [country=us]. *)
Theorem top_headlines_always_filtered country category sources query page page_size api_key :
  let params :=
    request_params (top_headlines_params country category sources query page page_size) api_key in
  (exists k v, In k ["country"; "category"; "sources"; "q"]%string /\
     dict_get k params = Some (PStr v) /\ v <> EmptyString) /\
  (exists n, dict_get "pageSize" params = Some (PInt n) /\ n <= 100) /\
  (existsb truthy [country; category; sources; query] = false ->
   dict_get "country" params = Some (PStr "us")).
Proof.
  cbv zeta.
  opt_cases country; opt_cases category; opt_cases sources; opt_cases query;
  unfold request_params, top_headlines_params, set_if, truthy; cbn;
  repeat match goal with
         | H : (?x =? EmptyString)%string = false |- context [(?x =? EmptyString)%string] =>
             rewrite H
         end;
  cbn;
  (split; [|split; [eexists; split; [reflexivity|lia]
                   |intros Hx; first [reflexivity|discriminate Hx]]]);
  first
    [ exists "country"%string; eexists; split; [simpl; tauto|split;
        [reflexivity|first [apply String.eqb_neq; assumption|discriminate]]]
    | exists "category"%string; eexists; split; [simpl; tauto|split;
        [reflexivity|apply String.eqb_neq; assumption]]
    | exists "sources"%string; eexists; split; [simpl; tauto|split;
        [reflexivity|apply String.eqb_neq; assumption]]
    | exists "q"%string; eexists; split; [simpl; tauto|split;
        [reflexivity|apply String.eqb_neq; assumption]] ].
Qed.

Lemma search_matches_spec q limit events matches :
  Z.of_nat (length matches) < Z.max 1 limit ->
  search_matches q limit events matches
  = matches ++ firstn (Z.to_nat (Z.max 1 limit) - length matches)
                 (filter (fun e => py_in q (searchable e)) events).
Proof.
  revert matches. induction events as [|e events IH]; intros matches Hlt.
  - cbn [search_matches filter]. rewrite firstn_nil, app_nil_r. reflexivity.
  - cbn [search_matches filter]. destruct (py_in q (searchable e)).
    + destruct (limit <=? Z.of_nat (length (matches ++ [e]))) eqn:L.
      * apply Z.leb_le in L. rewrite length_app in L. cbn [length] in L.
        replace (Z.to_nat (Z.max 1 limit) - length matches)%nat with 1%nat by lia.
        reflexivity.
      * apply Z.leb_gt in L. rewrite length_app in L. cbn [length] in L.
        rewrite IH by (rewrite length_app; cbn [length]; lia).
        replace (Z.to_nat (Z.max 1 limit) - length matches)%nat
          with (S (Z.to_nat (Z.max 1 limit) - length (matches ++ [e])))
          by (rewrite length_app; cbn [length]; lia).
        cbn [firstn]. rewrite <- app_assoc. reflexivity.
    + apply IH. exact Hlt.
Qed.

(** X14: [search_events] returns, in fetch order, the first
    [max(limit, 1)] fetched events whose lower-cased
    [title description tags] text contains the lower-cased query: all the
    matches when there are fewer, and still the first match when
    [limit <= 0]. *)
Theorem search_events_first_matches events query limit :
  search_events events query limit
  = firstn (Z.to_nat (Z.max 1 limit))
      (filter (fun e => py_in (py_lower query) (searchable e)) events).
Proof.
  unfold search_events. rewrite search_matches_spec by (cbn [length]; lia).
  rewrite Nat.sub_0_r. reflexivity.
Qed.
